(** * gum: build-tool resolution and argument rewriting

    A shallow embedding of the resolution engine of gum (package [gum]):
    the upward directory searches, the precedence between explicit flags
    and discovered files in [FindGradle] / [FindMaven], and the assembly of
    the final argument vector in [Execute].

    Sources embedded here:
    - the current gradle resolver ([GradleCommand], [doConfigureGradle],
      [FindGradle], [findGradleRootFile] with a settings boundary): module
      [Gradle];
    - the earlier gradle resolver ([Execute] without guards,
      [findGradleRootFile] with the parent test): module [GradleLegacy];
    - the maven resolver ([MavenCommand], [FindMaven]): modules [Maven] and
      [MavenLegacy]. *)

From Stdlib Require Import Ascii String List ZArith Lia Bool.
From stdpp Require Import base strings gmap list.
Import ListNotations.
Open Scope string_scope.
Open Scope list_scope.

(** ** Paths

    Every directory the resolver walks is absolute and cleaned: it starts
    from [GetWorkingDir] or from a [filepath.Abs] result and only ever
    applies [filepath.Join(dir, "..")] and [filepath.Join(dir, name)].
    Such a path is modelled by its components, deepest first: ["/a/b/c"]
    is [["c"; "b"; "a"]] and the filesystem root ["/"] is [[]].  Unix
    separators are assumed. *)

Abbreviation path := (list string).

(** [filepath.Join(dir, "..")]: the parent; the root is its own parent. *)
Definition parentOf (dir : path) : path := tail dir.

(** [filepath.Join(dir, name)] for a plain file name. *)
Definition Join (dir : path) (name : string) : path := name :: dir.

(** [filepath.Dir(file)]. *)
Definition Dir (file : path) : path := tail file.

(** [filepath.Base(dir)]; the base of the root is ["/"]. *)
Definition Base (dir : path) : string := hd "/" dir.

Fixpoint pathBody (p : path) : string :=
  match p with
  | [] => ""
  | c :: up => pathBody up +:+ "/" +:+ c
  end.

(** The Go string of a path. *)
Definition pathString (p : path) : string :=
  match p with
  | [] => "/"
  | _ => pathBody p
  end.

(** [len(p)] of the Go string. *)
Definition pathLen (p : path) : nat := String.length (pathString p).

(** A Go string that is either [""] or an absolute path. *)
Definition str (o : option path) : string :=
  match o with
  | Some p => pathString p
  | None => ""
  end.

(** [len(s) > 0]. *)
Definition nonEmpty (s : string) : bool := negb (String.eqb s "").

(** Components of a slash-separated name, in reading order. *)
Fixpoint components (s : string) : list string :=
  match s with
  | EmptyString => [""]
  | String c r =>
      let cs := components r in
      if Ascii.eqb c "/"%char then "" :: cs
      else match cs with
           | x :: xs => String c x :: xs
           | [] => [String c ""]
           end
  end.

Definition cleanStep (p : path) (c : string) : path :=
  if String.eqb c "" then p
  else if String.eqb c "." then p
  else if String.eqb c ".." then parentOf p
  else c :: p.

(** [filepath.Abs(name)] (Go standard library), for a process whose current
    directory is [cwd]: a name starting with a slash is cleaned, any other
    name is joined to [cwd] first. *)
Definition Abs (cwd : path) (name : string) : path :=
  match name with
  | String "/"%char _ => fold_left cleanStep (components name) []
  | _ => fold_left cleanStep (components name) cwd
  end.

(** ** Configuration

    Modelled from the spec: the [Config] type is declared outside the
    resolver sources.  The resolver reads [config.general.quiet],
    [config.general.debug], [config.gradle.replace] and
    [config.gradle.mappings] and calls [setQuiet], [setDebug] and
    [setReplace]; the mapping table sends an alias token to its
    replacement tokens. *)

Record Config := {
  general_quiet : bool;
  general_debug : bool;
  gradle_replace : bool;
  gradle_mappings : gmap string (list string)
}.

Definition setQuiet (b : bool) (c : Config) : Config :=
  {| general_quiet := b; general_debug := general_debug c;
     gradle_replace := gradle_replace c; gradle_mappings := gradle_mappings c |}.

Definition setDebug (b : bool) (c : Config) : Config :=
  {| general_quiet := general_quiet c; general_debug := b;
     gradle_replace := gradle_replace c; gradle_mappings := gradle_mappings c |}.

Definition setReplace (b : bool) (c : Config) : Config :=
  {| general_quiet := general_quiet c; general_debug := general_debug c;
     gradle_replace := b; gradle_mappings := gradle_mappings c |}.

(** ** The collaborator interface

    [Context] as the resolver consumes it.  [Getwd] is the process
    directory [filepath.Abs] resolves against and [ReadConfig] is the
    configuration reader called as [ReadConfig(context, rootdir)]; neither
    is a method of the Go interface, both are carried here because the
    model is pure.  [context.Exit] is an effect and appears in
    [Resolution]. *)

Record Context := {
  IsQuiet : bool;
  IsExplicit : bool;
  IsWindows : bool;
  GetWorkingDir : path;
  GetPaths : list path;
  FileExists : path -> bool;
  Getwd : path;
  ReadConfig : string -> Config
}.

(** [FileExists] on a Go string that may be empty: nothing is named [""]. *)
Definition fileExistsStr (ctx : Context) (o : option path) : bool :=
  match o with
  | Some p => FileExists ctx p
  | None => false
  end.

(** What a resolver call does.  [Exit s]: the resolver called
    [context.Exit(s)], which ends the process (the statement after it is
    [return nil]).  [Nil]: it returned [nil] without calling [Exit].
    [Plan c]: it returned the command [c]. *)
Inductive Resolution (C : Type) : Type :=
  | Exit (status : Z)
  | Nil
  | Plan (c : C).

Arguments Exit {C} status.
Arguments Nil {C}.
Arguments Plan {C} c.

(** ** Flag helpers

    Modelled from the spec: [GrabFlag], [findFlag] and [findFlagValue] are
    defined outside the resolver sources.  Meta-flag extraction removes
    exactly the matched flag tokens and leaves all other tokens in their
    original relative order, and is idempotent. *)

Definition GrabFlag (flag : string) (args : list string) : bool * list string :=
  (bool_decide (flag ∈ args), filter (λ s, s ≠ flag) args).

Definition findFlag (flag : string) (args : list string) : bool :=
  bool_decide (flag ∈ args).

(** Modelled from the spec: a value flag is present when the flag token is
    followed by a value; the value of its first occurrence is returned. *)
Fixpoint findFlagValue (flag : string) (args : list string) : bool * string :=
  match args with
  | [] => (false, "")
  | s :: rest =>
      if String.eqb s flag then
        match rest with
        | v :: _ => (true, v)
        | [] => (false, "")
        end
      else findFlagValue flag rest
  end.

(** Modelled from the spec: [replaceArgs] is defined outside the resolver
    sources.  Each element of [args] that is a key of the mapping table is
    substituted in place by its replacement tokens; every other token
    passes through verbatim, order preserved.  The spec attaches no
    behaviour to the third argument of the call. *)
Definition replaceArgs (args : list string)
    (replacements : gmap string (list string)) (allowsSubMatch : bool)
    : list string :=
  flat_map (λ a, match replacements !! a with
                 | Some tokens => tokens
                 | None => [a]
                 end) args.

(** The [for i := range names] probe of one directory: the first candidate
    that exists, as [filepath.Abs(path)] (the identity on an absolute
    cleaned path). *)
Fixpoint probe (ctx : Context) (dir : path) (names : list string) : option path :=
  match names with
  | [] => None
  | n :: rest =>
      if FileExists ctx (Join dir n) then Some (Join dir n)
      else probe ctx dir rest
  end.

(** [fmt.Println] renderings used by the diagnostic dump. *)
Definition showBool (b : bool) : string := if b then "true" else "false".

Fixpoint joinWith (sep : string) (l : list string) : string :=
  match l with
  | [] => ""
  | [x] => x
  | x :: rest => x +:+ sep +:+ joinWith sep rest
  end.

Definition showList (l : list string) : string := "[" +:+ joinWith " " l +:+ "]".

(** [fmt.Println(label, v)]: operands separated by one space. *)
Definition println2 (label v : string) : string := label +:+ " " +:+ v.

(** ** The gradle resolver (current sources) *)

Module Gradle.

(** [GradleCommand]: the plan.  The file fields are Go strings, [""] when
    absent; [context] is not needed after resolution and is left out. *)
Record GradleCommand := {
  config : Config;
  executable : string;
  args : list string;
  explicitProjectDir : string;
  buildFile : string;
  explicitBuildFile : string;
  rootBuildFile : string;
  settingsFile : string;
  explicitSettingsFile : string
}.

(** [resolveGradleWrapperExec] and [resolveGradleExec]. *)
Definition resolveGradleWrapperExec (ctx : Context) : string :=
  if IsWindows ctx then "gradlew.bat" else "gradlew".

Definition resolveGradleExec (ctx : Context) : string :=
  if IsWindows ctx then "gradle.bat" else "gradle".

(** [findGradleExec]: the first PATH directory holding the executable;
    [None] is the error result. *)
Fixpoint findInPaths (ctx : Context) (gradle : string) (paths : list path)
    : option path :=
  match paths with
  | [] => None
  | p :: rest =>
      let name := Join p gradle in
      if FileExists ctx name then Some name else findInPaths ctx gradle rest
  end.

Definition findGradleExec (ctx : Context) : option path :=
  findInPaths ctx (resolveGradleExec ctx) (GetPaths ctx).

(** [findGradleWrapperExec]: the recursion on [parentdir] is structural on
    the components; [parentdir == dir] holds at the root only. *)
Fixpoint findGradleWrapperExec (ctx : Context) (dir : path) : option path :=
  match dir with
  | [] => None
  | _ :: parentdir =>
      let path := Join dir (resolveGradleWrapperExec ctx) in
      if FileExists ctx path then Some path
      else findGradleWrapperExec ctx parentdir
  end.

(** The three explicit-flag readers return [(true, abs)] or [(false, "")]:
    [Some abs] and [None] here. *)
Definition findExplicit (ctx : Context) (short long : string)
    (args : list string) : option path :=
  let '(found, file) := findFlagValue short args in
  let '(found, file) :=
    if negb found then findFlagValue long args else (found, file) in
  if found then Some (Abs (Getwd ctx) file) else None.

Definition findExplicitProjectDir (ctx : Context) (args : list string) :=
  findExplicit ctx "-p" "--project-dir" args.

Definition findExplicitGradleBuildFile (ctx : Context) (args : list string) :=
  findExplicit ctx "-b" "--build-file" args.

Definition findExplicitGradleSettingsFile (ctx : Context) (args : list string) :=
  findExplicit ctx "-c" "--settings-file" args.

(** [findGradleBuildFile]: nearest build file, four candidates per
    directory. *)
Definition buildFiles (dir : path) : list string :=
  [ "build.gradle"; "build.gradle.kts";
    Base dir +:+ ".gradle"; Base dir +:+ ".gradle.kts" ].

Fixpoint findGradleBuildFile (ctx : Context) (dir : path) : option path :=
  match dir with
  | [] => None
  | _ :: parentdir =>
      match probe ctx dir (buildFiles dir) with
      | Some f => Some f
      | None => findGradleBuildFile ctx parentdir
      end
  end.

(** [findGradleSettingsFile]. *)
Definition settingsFiles : list string := [ "settings.gradle"; "settings.gradle.kts" ].

Fixpoint findGradleSettingsFile (ctx : Context) (dir : path) : option path :=
  match dir with
  | [] => None
  | _ :: parentdir =>
      match probe ctx dir settingsFiles with
      | Some f => Some f
      | None => findGradleSettingsFile ctx parentdir
      end
  end.

(** [findGradleRootFile]: the directory is probed first; the boundary test
    [len(parentdir) <= len(settingsdir)] comes after the probe and only
    when [settingsFile] is not empty. *)
Definition rootBuildFiles : list string := [ "build.gradle"; "build.gradle.kts" ].

Definition boundary (parentdir : path) (settingsFile : option path) : bool :=
  match settingsFile with
  | Some f => Nat.leb (pathLen parentdir) (pathLen (Dir f))
  | None => false
  end.

Fixpoint findGradleRootFile (ctx : Context) (dir : path)
    (settingsFile : option path) : option path :=
  match dir with
  | [] => None
  | _ :: parentdir =>
      match probe ctx dir rootBuildFiles with
      | Some f => Some f
      | None =>
          if boundary parentdir settingsFile then None
          else findGradleRootFile ctx parentdir settingsFile
      end
  end.

(** [resolveGradleWrapperExecutable]. *)
Definition resolveGradleWrapperExecutable (ctx : Context) (args : list string)
    : option path :=
  match findExplicitProjectDir ctx args with
  | Some projectDir => findGradleWrapperExec ctx projectDir
  | None => findGradleWrapperExec ctx (GetWorkingDir ctx)
  end.

(** [filepath.Dir] of a Go string that may be empty: [Dir("")] is ["."]. *)
Definition dirStr (o : option path) : string :=
  match o with
  | Some f => pathString (Dir f)
  | None => "."
  end.

(** [resolveGradleRootDir]. *)
Definition resolveGradleRootDir (ctx : Context)
    (explicitProjectDir explicitBuildFile explicitSettingsFile
     buildFile rootBuildFile settingsFile : option path) : string :=
  if fileExistsStr ctx explicitProjectDir then str explicitProjectDir
  else if fileExistsStr ctx explicitBuildFile then dirStr explicitBuildFile
  else if fileExistsStr ctx rootBuildFile then dirStr rootBuildFile
  else if fileExistsStr ctx explicitSettingsFile then dirStr explicitSettingsFile
  else if fileExistsStr ctx settingsFile then dirStr settingsFile
  else dirStr buildFile.

(** A command literal with only some fields set, the others at their zero
    value. *)
Definition command (cfg : Config) (exe : string) (args : list string)
    (explicitProjectDir buildFile explicitBuildFile rootBuildFile
     settingsFile explicitSettingsFile : string) : GradleCommand :=
  {| config := cfg; executable := exe; args := args;
     explicitProjectDir := explicitProjectDir;
     buildFile := buildFile; explicitBuildFile := explicitBuildFile;
     rootBuildFile := rootBuildFile; settingsFile := settingsFile;
     explicitSettingsFile := explicitSettingsFile |}.

(** [FindGradle].  The warnings it prints do not influence the result and
    are left out. *)
Definition FindGradle (ctx : Context) (args : list string)
    : Resolution GradleCommand :=
  let pwd := GetWorkingDir ctx in
  let gradle := findGradleExec ctx in
  let explicitProjectDir := findExplicitProjectDir ctx args in
  let gradlew := resolveGradleWrapperExecutable ctx args in
  let explicitBuildFile := findExplicitGradleBuildFile ctx args in
  let explicitSettingsFile := findExplicitGradleSettingsFile ctx args in
  let settingsFile := findGradleSettingsFile ctx pwd in
  let buildFile := findGradleBuildFile ctx pwd in
  let sf := match explicitBuildFile with
            | Some f => Some f
            | None => settingsFile
            end in
  let rootBuildFile := findGradleRootFile ctx (parentOf pwd) sf in
  let rootdir := resolveGradleRootDir ctx explicitProjectDir explicitBuildFile
                   explicitSettingsFile buildFile rootBuildFile settingsFile in
  let config := setQuiet (IsQuiet ctx) (ReadConfig ctx rootdir) in
  let executable :=
    match gradlew, gradle with
    | Some w, _ => Some w
    | None, Some g => Some g
    | None, None => None
    end in
  match executable with
  | None => if IsExplicit ctx then Exit (-1) else Nil
  | Some exe =>
      let executable := pathString exe in
      match explicitProjectDir with
      | Some d =>
          Plan (command config executable args (pathString d) "" "" "" "" "")
      | None =>
      match explicitBuildFile with
      | Some b =>
          match explicitSettingsFile with
          | Some s =>
              Plan (command config executable args
                      "" "" (pathString b) "" "" (pathString s))
          | None =>
              Plan (command config executable args
                      "" "" (pathString b) "" (str settingsFile) "")
          end
      | None =>
          let rootBuildFile :=
            match rootBuildFile with
            | Some r => Some r
            | None => buildFile
            end in
          let found :=
            Plan (command config executable args
                    "" (str buildFile) "" (str rootBuildFile)
                    (str settingsFile) (str explicitSettingsFile)) in
          match buildFile with
          | Some _ => found
          | None =>
              match explicitSettingsFile with
              | Some s =>
                  Plan (command config executable args
                          "" (str buildFile) "" (str rootBuildFile)
                          "" (pathString s))
              | None =>
                  match settingsFile with
                  | Some _ => found
                  | None => if IsExplicit ctx then Exit (-1) else Nil
                  end
              end
          end
      end
      end
  end.

(** [replaceGradleTasks]. *)
Definition replaceGradleTasks (config : Config) (args : list string)
    : list string :=
  if gradle_replace config
  then replaceArgs args (gradle_mappings config) true
  else args.

(** The locals of [doConfigureGradle] that [debugGradle] and
    [doExecuteGradle] receive, and what is printed. *)
Record Configured := {
  nearest : bool;
  oargs : list string;
  rargs : list string;
  finalArgs : list string;
  banner : list string;
  finalConfig : Config;
  stdout : list string
}.

(** [debugGradle]. *)
Definition debugGradle (c : GradleCommand) (cfg : Config) (nearest : bool)
    (oargs rargs args : list string) : list string :=
  if general_debug cfg then
    [ println2 "nearest              = " (showBool nearest);
      println2 "rootBuildFile        = " (rootBuildFile c);
      println2 "buildFile            = " (buildFile c);
      println2 "settingsFile         = " (settingsFile c);
      println2 "explicitBuildFile    = " (explicitBuildFile c);
      println2 "explicitSettingsFile = " (explicitSettingsFile c);
      println2 "explicitProjectDir   = " (explicitProjectDir c);
      println2 "original args        = " (showList oargs) ]
    ++ (if gradle_replace cfg
        then [ println2 "replaced args        = " (showList rargs) ]
        else [])
    ++ [ println2 "actual args          = " (showList args); "" ]
  else [].

(** The tool-selection flags [doConfigureGradle] puts in front, with the
    banner clause and [buildFileSet]. *)
Definition buildFileChoice (c : GradleCommand) (nearest : bool)
    : list string * list string * bool :=
  if nonEmpty (explicitBuildFile c) then
    ([], ["to run buildFile '" +:+ explicitBuildFile c +:+ "':"], true)
  else if nearest && nonEmpty (buildFile c) then
    (["-b"; buildFile c], ["to run buildFile '" +:+ buildFile c +:+ "':"], true)
  else if nonEmpty (rootBuildFile c) then
    (["-b"; rootBuildFile c],
     ["to run buildFile '" +:+ rootBuildFile c +:+ "':"], true)
  else ([], [], false).

Definition settingsChoice (c : GradleCommand) (buildFileSet : bool)
    : list string * list string :=
  if nonEmpty (explicitSettingsFile c) then
    ([], if negb buildFileSet
         then ["with settings at '" +:+ explicitSettingsFile c +:+ "':"]
         else [])
  else if nonEmpty (settingsFile c) then
    (["-c"; settingsFile c],
     if negb buildFileSet
     then ["with settings at '" +:+ settingsFile c +:+ "':"]
     else [])
  else ([], []).

(** The branch of [doConfigureGradle] on [explicitProjectDir]: the flags
    put in front of the user's arguments and the banner clauses. *)
Definition toolSelection (c : GradleCommand) (nearest : bool)
    : list string * list string :=
  if nonEmpty (explicitProjectDir c) then
    ([], ["to run project at '" +:+ explicitProjectDir c +:+ "':"])
  else
    let '(bflags, bbanner, buildFileSet) := buildFileChoice c nearest in
    let '(sflags, sbanner) := settingsChoice c buildFileSet in
    (bflags ++ sflags, bbanner ++ sbanner).

(** [doConfigureGradle]. *)
Definition doConfigureGradle (c : GradleCommand) : Configured :=
  let banner0 := ["Using gradle at '" +:+ executable c +:+ "'"] in
  let '(nearest, oargs) := GrabFlag "-gn" (args c) in
  let debugSet := findFlag "-gd" oargs in
  let '(debug, oargs) := GrabFlag "-gd" oargs in
  let replaceSet := findFlag "-gr" oargs in
  let '(skipReplace, oargs) := GrabFlag "-gr" oargs in
  let cfg := if debugSet then setDebug debug (config c) else config c in
  let cfg := if replaceSet then setReplace (negb skipReplace) cfg else cfg in
  let rargs := replaceGradleTasks cfg oargs in
  let selection := toolSelection c nearest in
  let args := fst selection ++ rargs in
  let banner := banner0 ++ snd selection in
  {| nearest := nearest; oargs := oargs; rargs := rargs; finalArgs := args;
     banner := banner; finalConfig := cfg;
     stdout := debugGradle c cfg nearest oargs rargs args
               ++ (if negb (general_quiet cfg)
                   then [joinWith " " banner] else []) |}.

(** [Execute]: the process [doExecuteGradle] starts, as executable and
    argument vector. *)
Definition Execute (c : GradleCommand) : string * list string :=
  (executable c, finalArgs (doConfigureGradle c)).

End Gradle.

(** ** The gradle resolver (earlier sources)

    The earlier [gradle.go] reads the collaborators from package-level
    functions ([FileExists], [GetWorkingDir], ...); they are taken from a
    [Context] value here.  The build-file and settings searches are those
    of module [Gradle]; the root search, [FindGradle] and [Execute]
    differ. *)

Module GradleLegacy.

Record GradleCommand := {
  quiet : bool;
  executable : string;
  args : list string;
  buildFile : string;
  explicitBuildFile : string;
  rootBuildFile : string;
  settingsFile : string;
  explicitSettingsFile : string
}.

(** [findGradleBuildFile]: as in the current sources. *)
Definition findGradleBuildFile := Gradle.findGradleBuildFile.

(** The loop of [findGradleRootFile]: a candidate of [dir] is returned
    when it exists and the same name does not exist in [parentdir]. *)
Fixpoint probeNotInParent (env : Context) (dir parentdir : path)
    (names : list string) : option path :=
  match names with
  | [] => None
  | n :: rest =>
      let currentBuild := Join dir n in
      let parentBuild := Join parentdir n in
      if FileExists env currentBuild && negb (FileExists env parentBuild)
      then Some currentBuild
      else probeNotInParent env dir parentdir rest
  end.

(** [findGradleRootFile]: after the loop it hands over to
    [findGradleBuildFile(parentdir, args)]. *)
Definition findGradleRootFile (env : Context) (dir : path) : option path :=
  match dir with
  | [] => None
  | _ :: parentdir =>
      match probeNotInParent env dir parentdir Gradle.rootBuildFiles with
      | Some f => Some f
      | None => findGradleBuildFile env parentdir
      end
  end.

(** [Execute]: the argument vector handed to [exec.Command].  The last
    branch of the build-file choice has no guard. *)
Definition Execute (c : GradleCommand) : string * list string :=
  let '(nearest, nargs) := GrabFlag "-gn" (args c) in
  let bflags :=
    if nonEmpty (explicitBuildFile c) then []
    else if nearest && nonEmpty (buildFile c) then ["-b"; buildFile c]
    else ["-b"; rootBuildFile c] in
  let sflags :=
    if nonEmpty (settingsFile c) then ["-c"; settingsFile c] else [] in
  (executable c, bflags ++ sflags ++ nargs).

(** [findExplicitGradleBuildFile] and [findExplicitGradleSettingsFile]:
    the value of the flag as typed, not absolutized. *)
Definition findExplicit (short long : string) (args : list string)
    : option string :=
  let '(found, file) := findFlagValue short args in
  let '(found, file) :=
    if negb found then findFlagValue long args else (found, file) in
  if found then Some file else None.

Definition rawStr (o : option string) : string :=
  match o with
  | Some s => s
  | None => ""
  end.

Definition command (quiet : bool) (exe : string) (args : list string)
    (buildFile explicitBuildFile rootBuildFile settingsFile
     explicitSettingsFile : string) : GradleCommand :=
  {| quiet := quiet; executable := exe; args := args;
     buildFile := buildFile; explicitBuildFile := explicitBuildFile;
     rootBuildFile := rootBuildFile; settingsFile := settingsFile;
     explicitSettingsFile := explicitSettingsFile |}.

(** [FindGradle(quiet, explicit, args)]; [Nil] stands for the
    [EmptyCommand{}] it returns when it gives up, [Exit] for [os.Exit]. *)
Definition FindGradle (env : Context) (quiet explicit : bool)
    (args : list string) : Resolution GradleCommand :=
  let pwd := GetWorkingDir env in
  let gradlew := Gradle.findGradleWrapperExec env pwd in
  let gradle := Gradle.findGradleExec env in
  let explicitBuildFile := findExplicit "-b" "--build-file" args in
  let explicitSettingsFile := findExplicit "-c" "--settings-file" args in
  let settingsFile := Gradle.findGradleSettingsFile env pwd in
  let buildFile := findGradleBuildFile env pwd in
  let executable :=
    match gradlew, gradle with
    | Some w, _ => Some w
    | None, Some g => Some g
    | None, None => None
    end in
  match executable with
  | None => if explicit then Exit (-1) else Nil
  | Some exe =>
      let executable := pathString exe in
      match explicitBuildFile with
      | Some b =>
          match explicitSettingsFile with
          | Some s => Plan (command quiet executable args "" b "" "" s)
          | None =>
              Plan (command quiet executable args "" b "" (str settingsFile) "")
          end
      | None =>
          let rootBuildFile := findGradleRootFile env pwd in
          let found :=
            Plan (command quiet executable args (str buildFile) ""
                    (str rootBuildFile) (str settingsFile) "") in
          match buildFile with
          | Some _ => found
          | None =>
              match explicitSettingsFile with
              | Some s =>
                  Plan (command quiet executable args (str buildFile) ""
                          (str rootBuildFile) "" s)
              | None =>
                  match settingsFile with
                  | Some _ => found
                  | None => if explicit then Exit (-1) else Nil
                  end
              end
          end
      end
  end.

End GradleLegacy.

(** ** The maven resolver *)

Module Maven.

Record MavenCommand := {
  context : Context;
  executable : string;
  args : list string;
  buildFile : string;
  explicitBuildFile : string;
  rootBuildFile : string
}.

Definition resolveMavenWrapperExec (ctx : Context) : string :=
  if IsWindows ctx then "mvnw.bat" else "mvnw".

Definition resolveMavenExec (ctx : Context) : string :=
  if IsWindows ctx then "mvn.bat" else "mvn".

(** [findMavenExec]: the same PATH loop as [findGradleExec]. *)
Definition findMavenExec (ctx : Context) : option path :=
  Gradle.findInPaths ctx (resolveMavenExec ctx) (GetPaths ctx).

Fixpoint findMavenWrapperExec (ctx : Context) (dir : path) : option path :=
  match dir with
  | [] => None
  | _ :: parentdir =>
      let path := Join dir (resolveMavenWrapperExec ctx) in
      if FileExists ctx path then Some path
      else findMavenWrapperExec ctx parentdir
  end.

(** [findExplicitMavenBuildFile]; the value reader it calls is named
    [findFlag] in [maven.go] and [findFlagValue] in the gradle sources. *)
Definition findExplicitMavenBuildFile (ctx : Context) (args : list string)
    : option path :=
  Gradle.findExplicit ctx "-f" "--file" args.

(** [findMavenBuildFile] and [findMavenRootFile] have the same body. *)
Fixpoint findMavenBuildFile (ctx : Context) (dir : path) : option path :=
  match dir with
  | [] => None
  | _ :: parentdir =>
      let path := Join dir "pom.xml" in
      if FileExists ctx path then Some path
      else findMavenBuildFile ctx parentdir
  end.

Fixpoint findMavenRootFile (ctx : Context) (dir : path) : option path :=
  match dir with
  | [] => None
  | _ :: parentdir =>
      let path := Join dir "pom.xml" in
      if FileExists ctx path then Some path
      else findMavenRootFile ctx parentdir
  end.

Definition command (ctx : Context) (exe : string) (args : list string)
    (buildFile explicitBuildFile rootBuildFile : string) : MavenCommand :=
  {| context := ctx; executable := exe; args := args;
     buildFile := buildFile; explicitBuildFile := explicitBuildFile;
     rootBuildFile := rootBuildFile |}.

(** [FindMaven]. *)
Definition FindMaven (ctx : Context) (args : list string)
    : Resolution MavenCommand :=
  let pwd := GetWorkingDir ctx in
  let mvnw := findMavenWrapperExec ctx pwd in
  let mvn := findMavenExec ctx in
  let explicitBuildFile := findExplicitMavenBuildFile ctx args in
  let executable :=
    match mvnw, mvn with
    | Some w, _ => Some w
    | None, Some m => Some m
    | None, None => None
    end in
  match executable with
  | None => if IsExplicit ctx then Exit (-1) else Nil
  | Some exe =>
      let executable := pathString exe in
      match explicitBuildFile with
      | Some b => Plan (command ctx executable args "" (pathString b) "")
      | None =>
          let rootBuildFile := findMavenRootFile ctx (parentOf pwd) in
          let buildFile := findMavenBuildFile ctx pwd in
          let rootBuildFile :=
            match rootBuildFile with
            | Some r => Some r
            | None => buildFile
            end in
          match buildFile with
          | None => if IsExplicit ctx then Exit (-1) else Nil
          | Some _ =>
              Plan (command ctx executable args
                      (str buildFile) "" (str rootBuildFile))
          end
      end
  end.

(** What [Execute] prints and starts. *)
Record Executed := {
  nearest : bool;
  finalArgs : list string;
  stdout : list string
}.

(** The build-file branch of [Execute]: the flags put in front and the
    banner clause. *)
Definition toolSelection (c : MavenCommand) (nearest : bool)
    : list string * list string :=
  if nonEmpty (explicitBuildFile c) then
    ([], ["to run buildFile '" +:+ explicitBuildFile c +:+ "':"])
  else if nearest && nonEmpty (buildFile c) then
    (["-f"; buildFile c], ["to run buildFile '" +:+ buildFile c +:+ "':"])
  else if nonEmpty (rootBuildFile c) then
    (["-f"; rootBuildFile c],
     ["to run buildFile '" +:+ rootBuildFile c +:+ "':"])
  else ([], []).

(** [Execute]. *)
Definition Execute (c : MavenCommand) : Executed :=
  let banner0 := ["Using maven at '" +:+ executable c +:+ "'"] in
  let '(nearest, nargs) := GrabFlag "-gn" (args c) in
  let '(debug, nargs) := GrabFlag "-gd" nargs in
  let dump :=
    if debug then
      [ println2 "nearest            = " (showBool nearest);
        println2 "args               = " (showList nargs);
        println2 "rootBuildFile      = " (rootBuildFile c);
        println2 "buildFile          = " (buildFile c);
        println2 "explicitBuildFile  = " (explicitBuildFile c);
        "" ]
    else [] in
  let selection := toolSelection c nearest in
  {| nearest := nearest; finalArgs := fst selection ++ nargs;
     stdout := dump ++ (if negb (IsQuiet (context c))
                        then [joinWith " " (banner0 ++ snd selection)]
                        else []) |}.

End Maven.

(** ** The maven resolver (earlier sources)

    [FindMaven(quiet, explicit, args)] reads the collaborators from
    package-level functions and calls [os.Exit(-1)]; the searches are those
    of module [Maven]. *)

Module MavenLegacy.

Record mavenCommand := {
  quiet : bool;
  executable : string;
  args : list string;
  buildFile : string;
  explicitBuildFile : string;
  rootBuildFile : string
}.

Definition command (quiet : bool) (exe : string) (args : list string)
    (buildFile explicitBuildFile rootBuildFile : string) : mavenCommand :=
  {| quiet := quiet; executable := exe; args := args;
     buildFile := buildFile; explicitBuildFile := explicitBuildFile;
     rootBuildFile := rootBuildFile |}.

Definition FindMaven (env : Context) (quiet explicit : bool)
    (args : list string) : Resolution mavenCommand :=
  let pwd := GetWorkingDir env in
  let mvnw := Maven.findMavenWrapperExec env pwd in
  let mvn := Maven.findMavenExec env in
  let explicitBuildFile := Maven.findExplicitMavenBuildFile env args in
  let executable :=
    match mvnw, mvn with
    | Some w, _ => Some w
    | None, Some m => Some m
    | None, None => None
    end in
  match executable with
  | None => if explicit then Exit (-1) else Nil
  | Some exe =>
      let executable := pathString exe in
      match explicitBuildFile with
      | Some b => Plan (command quiet executable args "" (pathString b) "")
      | None =>
          let rootBuildFile := Maven.findMavenRootFile env (parentOf pwd) in
          let buildFile := Maven.findMavenBuildFile env pwd in
          let rootBuildFile :=
            match rootBuildFile with
            | Some r => Some r
            | None => buildFile
            end in
          match buildFile with
          | None => if explicit then Exit (-1) else Nil
          | Some _ =>
              Plan (command quiet executable args
                      (str buildFile) "" (str rootBuildFile))
          end
      end
  end.

End MavenLegacy.

(** ** Concrete trees

    A context over a finite listing of the files that exist, used to run
    the resolver on the repository's test scenarios and on the inputs the
    theorems below are instantiated at. *)

Definition plainConfig : Config :=
  {| general_quiet := false; general_debug := false;
     gradle_replace := false; gradle_mappings := ∅ |}.

Definition treeContext (files : list string) (pwd : string)
    (paths : list string) (explicit : bool) (cfg : Config) : Context :=
  {| IsQuiet := true; IsExplicit := explicit; IsWindows := false;
     GetWorkingDir := Abs [] pwd;
     GetPaths := map (Abs []) paths;
     FileExists := λ p, bool_decide (pathString p ∈ files);
     Getwd := Abs [] pwd;
     ReadConfig := λ _, cfg |}.

(** The layout of [tests/gradle] that [gradle_test.go] expects. *)
Definition testFiles : list string :=
  [ "/t/bin/gradle";
    "/t/single-with-wrapper/gradlew";
    "/t/single-with-wrapper/build.gradle";
    "/t/single-with-wrapper/settings.gradle";
    "/t/single-without-wrapper/build.gradle";
    "/t/single-without-wrapper/settings.gradle";
    "/t/parent-with-wrapper";
    "/t/parent-with-wrapper/gradlew";
    "/t/parent-with-wrapper/build.gradle";
    "/t/parent-with-wrapper/settings.gradle";
    "/t/parent-with-wrapper/child/build.gradle";
    "/t/parent-without-wrapper/build.gradle";
    "/t/parent-without-wrapper/settings.gradle";
    "/t/parent-without-wrapper/child/build.gradle";
    "/t/parent-with-explicit/gradlew";
    "/t/parent-with-explicit/build.gradle";
    "/t/parent-with-explicit/settings.gradle";
    "/t/parent-with-explicit/child/explicit.gradle";
    "/t/parent-with-conventional-child/gradlew";
    "/t/parent-with-conventional-child/build.gradle";
    "/t/parent-with-conventional-child/settings.gradle";
    "/t/parent-with-conventional-child/child/child.gradle" ].

Definition testContext (pwd : string) (paths : list string) : Context :=
  treeContext testFiles pwd paths true plainConfig.

(** The fields [gradle_test.go] checks on a plan. *)
Definition planFields (r : Resolution Gradle.GradleCommand) : option (list string) :=
  match r with
  | Plan c =>
      Some [ Gradle.executable c; Gradle.rootBuildFile c; Gradle.buildFile c;
             Gradle.settingsFile c; Gradle.explicitBuildFile c;
             Gradle.explicitSettingsFile c; Gradle.explicitProjectDir c ]
  | _ => None
  end.

(** A maven layout: a parent and a child module, and a lone project. *)
Definition mavenFiles : list string :=
  [ "/m/bin/mvn";
    "/m/parent/pom.xml";
    "/m/parent/child/pom.xml";
    "/m/single/pom.xml" ].

Definition mavenContext (pwd : string) (paths : list string) : Context :=
  treeContext mavenFiles pwd paths true plainConfig.

(** A chain of same-named build files: [/a/build.gradle] above
    [/a/b/build.gradle], nothing in [/a/b/c]. *)
Definition chainFiles : list string :=
  [ "/bin/gradle"; "/a/build.gradle"; "/a/b/build.gradle" ].

Definition chainContext : Context :=
  treeContext chainFiles "/a/b/c" ["/bin"] true plainConfig.

(** A project whose settings file sits in the working directory [/a/p],
    below a directory that has a build file of its own. *)
Definition nestedFiles : list string :=
  [ "/bin/gradle"; "/a/build.gradle";
    "/a/p/settings.gradle"; "/a/p/build.gradle" ].

Definition nestedContext : Context :=
  treeContext nestedFiles "/a/p" ["/bin"] true plainConfig.

(** [f] is the first root candidate met on the walk from [dir] upward: it
    is the probe result of a directory [d] at or above [dir], not the
    filesystem root, and no directory of the walk below [d] holds a
    candidate. *)
Definition nearestRootCandidate (ctx : Context) (dir f : path) : Prop :=
  exists below d,
    dir = below ++ d /\ d <> [] /\
    probe ctx d Gradle.rootBuildFiles = Some f /\
    forall k, k < length below ->
      probe ctx (drop k dir) Gradle.rootBuildFiles = None.

(** Depth of a directory: [a] is shallower than [b]. *)
Definition shallower (a b : path) : Prop := length a < length b.

(** A configuration with rewriting enabled and two aliases, one of them
    keyed by a tool-selection flag. *)
Definition aliasConfig : Config :=
  {| general_quiet := false; general_debug := false;
     gradle_replace := true;
     gradle_mappings := <[ "-b" := ["--offline"] ]> (<[ "b" := ["build"] ]> ∅) |}.

Definition aliasContext : Context :=
  treeContext testFiles "/t/parent-with-explicit/child" ["/t/bin"] true aliasConfig.

(** A project with a settings file and no build file. *)
Definition settingsOnlyContext : Context :=
  treeContext [ "/bin/gradle"; "/s/settings.gradle" ] "/s" ["/bin"] true plainConfig.

(** The command the earlier resolver returns for that project (see
    [legacy_settings_only_plan]). *)
Definition legacySettingsOnly : GradleLegacy.GradleCommand :=
  {| GradleLegacy.quiet := true;
     GradleLegacy.executable := "/bin/gradle";
     GradleLegacy.args := ["build"];
     GradleLegacy.buildFile := "";
     GradleLegacy.explicitBuildFile := "";
     GradleLegacy.rootBuildFile := "";
     GradleLegacy.settingsFile := "/s/settings.gradle";
     GradleLegacy.explicitSettingsFile := "" |}.

(** A parent whose build file is named after its directory
    ([proj.gradle]), above a child with [build.gradle]. *)
Definition conventionalParentContext : Context :=
  treeContext [ "/bin/gradle"; "/w/proj/proj.gradle";
                "/w/proj/child/build.gradle" ]
    "/w/proj/child" ["/bin"] true plainConfig.

(** A maven module directly below the filesystem root, which holds a
    [pom.xml] too. *)
Definition rootPomContext : Context :=
  treeContext [ "/bin/mvn"; "/pom.xml"; "/c/pom.xml" ] "/c" ["/bin"] true plainConfig.

(** ** The shape the upward searches share

    [findGradleBuildFile], [findGradleSettingsFile], the two wrapper
    searches and the two [pom.xml] searches are the same walk with
    different candidate names.  [upward] is that walk; it is an auxiliary
    of the proofs, each search is shown equal to it. *)
Fixpoint upward (ctx : Context) (names : path -> list string) (dir : path)
    : option path :=
  match dir with
  | [] => None
  | _ :: parentdir =>
      match probe ctx dir (names dir) with
      | Some f => Some f
      | None => upward ctx names parentdir
      end
  end.

(** No candidate of directory [d] exists. *)
Definition noCandidate (ctx : Context) (names : path -> list string)
    (d : path) : Prop :=
  forall n, n ∈ names d -> FileExists ctx (Join d n) = false.

(** [f] is the first candidate of directory [d] that exists. *)
Definition firstExisting (ctx : Context) (names : path -> list string)
    (d f : path) : Prop :=
  exists pre n post,
    names d = pre ++ n :: post /\ f = Join d n /\
    FileExists ctx f = true /\
    forall m, m ∈ pre -> FileExists ctx (Join d m) = false.

(** [f] is the first existing candidate of the nearest directory, from
    [dir] upward and short of the filesystem root, that has one. *)
Definition upwardResult (ctx : Context) (names : path -> list string)
    (dir f : path) : Prop :=
  exists below d,
    dir = below ++ d /\ d <> [] /\ firstExisting ctx names d f /\
    forall k, k < length below -> noCandidate ctx names (drop k dir).

(** [p] is the executable [exe] in the first PATH entry that has it. *)
Definition firstInPaths (ctx : Context) (exe : string) (paths : list path)
    (p : path) : Prop :=
  exists pre d post,
    paths = pre ++ d :: post /\ p = Join d exe /\
    FileExists ctx p = true /\
    forall e, e ∈ pre -> FileExists ctx (Join e exe) = false.

(** The configuration [doConfigureGradle] works with, given the
    meta-flags among the arguments. *)
Definition configAfterFlags (cfg : Config) (args : list string) : Config :=
  {| general_quiet := general_quiet cfg;
     general_debug := general_debug cfg || bool_decide ("-gd" ∈ args);
     gradle_replace := gradle_replace cfg && negb (bool_decide ("-gr" ∈ args));
     gradle_mappings := gradle_mappings cfg |}.

(** [f] is the file called [n] in the nearest directory, from [dir] upward
    and short of the filesystem root, that holds such a file. *)
Definition nearestNamed (ctx : Context) (n : string) (dir f : path) : Prop :=
  exists below d,
    dir = below ++ d /\ d <> [] /\ f = Join d n /\
    FileExists ctx f = true /\
    forall k, k < length below -> FileExists ctx (Join (drop k dir) n) = false.

(** The test tree with a configuration file in
    [/t/parent-with-wrapper] only. *)
Definition configuredContext : Context :=
  {| IsQuiet := true; IsExplicit := true; IsWindows := false;
     GetWorkingDir := Abs [] "/t/parent-with-wrapper/child";
     GetPaths := [Abs [] "/t/bin"];
     FileExists := λ p, bool_decide (pathString p ∈ testFiles);
     Getwd := Abs [] "/t/parent-with-wrapper/child";
     ReadConfig := λ rootdir,
       if String.eqb rootdir "/t/parent-with-wrapper"
       then aliasConfig else plainConfig |}.

(** * Properties *)

(** Runs a resolver on a concrete tree and names the plan it returns. *)
Tactic Notation "resolve_plan" constr(r) "as" ident(c) ident(H) :=
  destruct r as [? | | c] eqn:H; [vm_compute in H; discriminate .. |].

(** ** The scenarios of [gradle_test.go]

    The model returns the fields each test checks. *)

Example TestGradleSingleWithWrapper :
  planFields (Gradle.FindGradle (testContext "/t/single-with-wrapper" ["/t/bin"]) [])
  = Some [ "/t/single-with-wrapper/gradlew";
           "/t/single-with-wrapper/build.gradle";
           "/t/single-with-wrapper/build.gradle";
           "/t/single-with-wrapper/settings.gradle"; ""; ""; "" ].
Proof. vm_compute. reflexivity. Qed.

Example TestGradleSingleWithoutWrapper :
  planFields (Gradle.FindGradle (testContext "/t/single-without-wrapper" ["/t/bin"]) [])
  = Some [ "/t/bin/gradle";
           "/t/single-without-wrapper/build.gradle";
           "/t/single-without-wrapper/build.gradle";
           "/t/single-without-wrapper/settings.gradle"; ""; ""; "" ].
Proof. vm_compute. reflexivity. Qed.

Example TestGradleParentWithWrapper :
  planFields (Gradle.FindGradle (testContext "/t/parent-with-wrapper/child" ["/t/bin"]) [])
  = Some [ "/t/parent-with-wrapper/gradlew";
           "/t/parent-with-wrapper/build.gradle";
           "/t/parent-with-wrapper/child/build.gradle";
           "/t/parent-with-wrapper/settings.gradle"; ""; ""; "" ].
Proof. vm_compute. reflexivity. Qed.

Example TestGradleParentWithoutWrapper :
  planFields (Gradle.FindGradle (testContext "/t/parent-without-wrapper/child" ["/t/bin"]) [])
  = Some [ "/t/bin/gradle";
           "/t/parent-without-wrapper/build.gradle";
           "/t/parent-without-wrapper/child/build.gradle";
           "/t/parent-without-wrapper/settings.gradle"; ""; ""; "" ].
Proof. vm_compute. reflexivity. Qed.

Example TestGradleWithExplicitBuildFile :
  planFields (Gradle.FindGradle (testContext "/t/parent-with-explicit/child" ["/t/bin"])
                ["-b"; "/t/parent-with-explicit/child/explicit.gradle"])
  = Some [ "/t/parent-with-explicit/gradlew"; ""; "";
           "/t/parent-with-explicit/settings.gradle";
           "/t/parent-with-explicit/child/explicit.gradle"; ""; "" ].
Proof. vm_compute. reflexivity. Qed.

Example TestGradleWithExplicitSettingsFile :
  planFields (Gradle.FindGradle (testContext "/t/parent-with-wrapper/child" ["/t/bin"])
                ["-c"; "/t/parent-with-wrapper/child/../settings.gradle"])
  = Some [ "/t/parent-with-wrapper/gradlew";
           "/t/parent-with-wrapper/build.gradle";
           "/t/parent-with-wrapper/child/build.gradle";
           "/t/parent-with-wrapper/settings.gradle"; "";
           "/t/parent-with-wrapper/settings.gradle"; "" ].
Proof. vm_compute. reflexivity. Qed.

Example TestGradleWithExplicitProjectDir :
  planFields (Gradle.FindGradle (testContext "/t/parent-with-wrapper/child" ["/t/bin"])
                ["-p"; "/t/parent-with-wrapper/child/.."])
  = Some [ "/t/parent-with-wrapper/gradlew"; ""; ""; ""; ""; "";
           "/t/parent-with-wrapper" ].
Proof. vm_compute. reflexivity. Qed.

Example TestGradleWithNearestBuildFile :
  planFields (Gradle.FindGradle
                (testContext "/t/parent-with-conventional-child/child" ["/t/bin"]) ["-gn"])
  = Some [ "/t/parent-with-conventional-child/gradlew";
           "/t/parent-with-conventional-child/build.gradle";
           "/t/parent-with-conventional-child/child/child.gradle";
           "/t/parent-with-conventional-child/settings.gradle"; ""; ""; "" ].
Proof. vm_compute. reflexivity. Qed.

(** [TestGradleWithoutExecutables]: the test context is explicit, so the
    resolver calls [Exit(-1)] before its [return nil]. *)
Example TestGradleWithoutExecutables :
  Gradle.FindGradle (testContext "/t/single-without-wrapper" []) [] = Exit (-1).
Proof. vm_compute. reflexivity. Qed.

(** ** Paths and strings *)

Lemma parentOf_fixpoint (dir : path) : parentOf dir = dir <-> dir = [].
Proof.
  split; [| intros ->; reflexivity].
  destruct dir as [| c up]; [reflexivity |]. unfold parentOf; simpl.
  intros H. apply (f_equal (@length string)) in H. simpl in H. lia.
Qed.

Lemma append_slash_head (s c : string) :
  (s = "" \/ exists t, s = String "/" t) ->
  exists t, s +:+ "/" +:+ c = String "/" t.
Proof.
  intros [-> | [t ->]]; simpl; eauto.
Qed.

Lemma pathBody_head (p : path) :
  pathBody p = "" \/ exists t, pathBody p = String "/" t.
Proof.
  induction p as [| c up IH]; [left; reflexivity |].
  right. simpl. apply append_slash_head. exact IH.
Qed.

(** A path string always starts with the separator. *)
Lemma pathString_head (p : path) : exists t, pathString p = String "/" t.
Proof.
  destruct p as [| c up]; [eexists; reflexivity |].
  unfold pathString. simpl. apply append_slash_head, pathBody_head.
Qed.

Lemma nonEmpty_pathString (p : path) : nonEmpty (pathString p) = true.
Proof. destruct (pathString_head p) as [t ->]. reflexivity. Qed.

Lemma nonEmpty_str (o : option path) : nonEmpty (str o) = true <-> o <> None.
Proof.
  destruct o as [p |]; simpl.
  - rewrite nonEmpty_pathString. split; [discriminate | reflexivity].
  - split; [discriminate | congruence].
Qed.

Lemma nonEmpty_true (s : string) : nonEmpty s = true <-> s <> "".
Proof.
  unfold nonEmpty. rewrite negb_true_iff. split.
  - intros H ->. discriminate.
  - intros H. apply String.eqb_neq. exact H.
Qed.

Lemma nonEmpty_false (s : string) : nonEmpty s = false <-> s = "".
Proof.
  unfold nonEmpty. rewrite negb_false_iff. apply String.eqb_eq.
Qed.

(** A path string is none of the flag tokens. *)
Lemma pathString_not_dash (p : path) (t : string) :
  pathString p <> String "-" t.
Proof. destruct (pathString_head p) as [u ->]. discriminate. Qed.

(** ** Flag helpers *)

Lemma GrabFlag_rest (flag : string) (args : list string) (t : string) :
  t ∈ snd (GrabFlag flag args) <-> t ∈ args /\ t <> flag.
Proof. unfold GrabFlag; simpl. rewrite list_elem_of_filter. tauto. Qed.

Lemma GrabFlag_found (flag : string) (args : list string) :
  fst (GrabFlag flag args) = true <-> flag ∈ args.
Proof. unfold GrabFlag; simpl. apply bool_decide_eq_true. Qed.

Lemma filter_filter_and {A} (P Q : A -> Prop)
    `{!forall x, Decision (P x)} `{!forall x, Decision (Q x)} (l : list A) :
  filter P (filter Q l) = filter (λ x, P x /\ Q x) l.
Proof.
  induction l as [| a l IH]; [reflexivity |].
  rewrite !filter_cons. destruct (decide (Q a)) as [q | q].
  - rewrite filter_cons. destruct (decide (P a)), (decide (P a /\ Q a));
      try tauto; rewrite IH; reflexivity.
  - destruct (decide (P a /\ Q a)); [tauto | exact IH].
Qed.

(** An explicit flag reader returns the absolutized value of a flag that
    the value reader found. *)
Lemma findExplicit_spec (ctx : Context) (short long : string)
    (args : list string) (p : path) :
  Gradle.findExplicit ctx short long args = Some p ->
  exists v, p = Abs (Getwd ctx) v /\
    (findFlagValue short args = (true, v) \/
     (fst (findFlagValue short args) = false /\
      findFlagValue long args = (true, v))).
Proof.
  unfold Gradle.findExplicit.
  destruct (findFlagValue short args) as [[|] v] eqn:Hs; simpl.
  - intros [= <-]. exists v. split; [reflexivity | left; reflexivity].
  - destruct (findFlagValue long args) as [[|] w] eqn:Hl; [| discriminate].
    intros [= <-]. exists w. split; [reflexivity | right; split; reflexivity].
Qed.

(** ** The argument rewriter *)

Lemma replaceArgs_empty (args : list string) (b : bool) :
  replaceArgs args ∅ b = args.
Proof.
  unfold replaceArgs. induction args as [| a rest IH]; [reflexivity |].
  simpl. rewrite lookup_empty. simpl. f_equal. exact IH.
Qed.

(** C9. The gradle argument rewriter returns its input list unchanged, for
    every argument list, when rewriting is disabled in the configuration
    or when the alias mapping table is empty. *)
Theorem rewriter_identity (cfg : Config) (args : list string) :
  gradle_replace cfg = false \/ gradle_mappings cfg = ∅ ->
  Gradle.replaceGradleTasks cfg args = args.
Proof.
  unfold Gradle.replaceGradleTasks. intros [Hoff | Hempty].
  - rewrite Hoff. reflexivity.
  - rewrite Hempty. destruct (gradle_replace cfg); [| reflexivity].
    apply replaceArgs_empty.
Qed.

Lemma rewriter_identity_witness :
  (gradle_replace (setReplace true plainConfig) = false \/
   gradle_mappings (setReplace true plainConfig) = ∅) /\
  Gradle.replaceGradleTasks (setReplace true plainConfig) ["clean"; "build"]
  = ["clean"; "build"].
Proof.
  split; [right; reflexivity |].
  apply (rewriter_identity (setReplace true plainConfig) ["clean"; "build"]).
  right; reflexivity.
Defined.

(** ** No executable *)

(** C5. When neither a wrapper nor a system executable is found, the
    gradle and the maven resolver call [Exit] with the non-zero status -1
    in explicit mode, and return [nil] without calling [Exit] otherwise. *)
Theorem no_executable_fatal_or_skipped (ctx : Context) (args : list string) :
  (Gradle.resolveGradleWrapperExecutable ctx args = None ->
   Gradle.findGradleExec ctx = None ->
   (IsExplicit ctx = true ->
      exists s, Gradle.FindGradle ctx args = Exit s /\ s <> 0%Z) /\
   (IsExplicit ctx = false -> Gradle.FindGradle ctx args = Nil)) /\
  (Maven.findMavenWrapperExec ctx (GetWorkingDir ctx) = None ->
   Maven.findMavenExec ctx = None ->
   (IsExplicit ctx = true ->
      exists s, Maven.FindMaven ctx args = Exit s /\ s <> 0%Z) /\
   (IsExplicit ctx = false -> Maven.FindMaven ctx args = Nil)).
Proof.
  split.
  - intros Hw Hs. unfold Gradle.FindGradle. rewrite Hw, Hs.
    split; intros ->; [exists (-1)%Z; split; [reflexivity | discriminate] |].
    reflexivity.
  - intros Hw Hs. unfold Maven.FindMaven. rewrite Hw, Hs.
    split; intros ->; [exists (-1)%Z; split; [reflexivity | discriminate] |].
    reflexivity.
Qed.

Lemma no_executable_fatal_or_skipped_witness :
  let strict := treeContext testFiles "/t/single-without-wrapper" [] true plainConfig in
  let lax := treeContext testFiles "/t/single-without-wrapper" [] false plainConfig in
  (Gradle.resolveGradleWrapperExecutable strict [] = None /\
   Gradle.findGradleExec strict = None /\
   exists s, Gradle.FindGradle strict [] = Exit s /\ s <> 0%Z) /\
  (Maven.findMavenWrapperExec lax (GetWorkingDir lax) = None /\
   Maven.findMavenExec lax = None /\
   Maven.FindMaven lax [] = Nil).
Proof.
  intros strict lax. split.
  - split; [reflexivity |]. split; [reflexivity |].
    destruct (no_executable_fatal_or_skipped strict []) as [G _].
    destruct G as [Gstrict _]; [reflexivity | reflexivity |].
    apply Gstrict. reflexivity.
  - split; [reflexivity |]. split; [reflexivity |].
    destruct (no_executable_fatal_or_skipped lax []) as [_ M].
    destruct M as [_ Mlax]; [reflexivity | reflexivity |].
    apply Mlax. reflexivity.
Defined.

(** ** Explicit overrides *)

(** C6. When the arguments carry [-p] / [--project-dir] with a directory,
    every plan the gradle resolver returns has [explicitProjectDir] set to
    that directory (absolutized) and all other file fields empty, carries
    the arguments untouched, and its executable is the wrapper found
    upward from the project directory, else the system executable. *)
Theorem explicit_project_dir_plan (ctx : Context) (args : list string)
    (d : path) (c : Gradle.GradleCommand) :
  Gradle.findExplicitProjectDir ctx args = Some d ->
  Gradle.FindGradle ctx args = Plan c ->
  Gradle.explicitProjectDir c = pathString d /\
  Gradle.buildFile c = "" /\ Gradle.rootBuildFile c = "" /\
  Gradle.settingsFile c = "" /\ Gradle.explicitBuildFile c = "" /\
  Gradle.explicitSettingsFile c = "" /\
  Gradle.args c = args /\
  (exists v, d = Abs (Getwd ctx) v /\
     (findFlagValue "-p" args = (true, v) \/
      findFlagValue "--project-dir" args = (true, v))) /\
  match Gradle.findGradleWrapperExec ctx d with
  | Some w => Gradle.executable c = pathString w
  | None => exists g, Gradle.findGradleExec ctx = Some g /\
                      Gradle.executable c = pathString g
  end.
Proof.
  intros Hp Hplan.
  assert (Hv : exists v, d = Abs (Getwd ctx) v /\
     (findFlagValue "-p" args = (true, v) \/
      findFlagValue "--project-dir" args = (true, v))).
  { destruct (findExplicit_spec _ _ _ _ _ Hp) as (v & -> & [H | [_ H]]);
      exists v; auto. }
  revert Hplan. unfold Gradle.FindGradle, Gradle.resolveGradleWrapperExecutable.
  rewrite Hp.
  destruct (Gradle.findGradleWrapperExec ctx d) as [w |].
  - intros [= <-]. simpl. repeat split; auto.
  - destruct (Gradle.findGradleExec ctx) as [g |].
    + intros [= <-]. simpl. repeat split; eauto.
    + destruct (IsExplicit ctx); discriminate.
Qed.

Lemma explicit_project_dir_plan_witness :
  let ctx := testContext "/t/parent-with-wrapper/child" ["/t/bin"] in
  let args := ["-p"; "/t/parent-with-wrapper/child/.."; "build"] in
  exists c,
    Gradle.findExplicitProjectDir ctx args = Some (Abs [] "/t/parent-with-wrapper") /\
    Gradle.FindGradle ctx args = Plan c /\
    Gradle.explicitProjectDir c = "/t/parent-with-wrapper" /\
    Gradle.buildFile c = "" /\ Gradle.rootBuildFile c = "" /\
    Gradle.settingsFile c = "" /\ Gradle.explicitBuildFile c = "" /\
    Gradle.explicitSettingsFile c = "".
Proof.
  intros ctx args.
  resolve_plan (Gradle.FindGradle ctx args) as c Hplan.
  exists c.
  assert (Hp : Gradle.findExplicitProjectDir ctx args
               = Some (Abs [] "/t/parent-with-wrapper")) by reflexivity.
  destruct (explicit_project_dir_plan ctx args _ c Hp Hplan)
    as (H1 & H2 & H3 & H4 & H5 & H6 & _).
  repeat split; assumption.
Defined.

(** C7. When the arguments carry [-b] / [--build-file] with a path and no
    project directory, every plan the gradle resolver returns has
    [explicitBuildFile] equal to the absolutized path and empty
    [buildFile] and [rootBuildFile]; when no explicit settings file is
    given either, the plan carries the settings file discovered upward
    from the working directory. *)
Theorem explicit_build_file_plan (ctx : Context) (args : list string)
    (b : path) (c : Gradle.GradleCommand) :
  Gradle.findExplicitProjectDir ctx args = None ->
  Gradle.findExplicitGradleBuildFile ctx args = Some b ->
  Gradle.FindGradle ctx args = Plan c ->
  Gradle.explicitBuildFile c = pathString b /\
  (exists v, b = Abs (Getwd ctx) v /\
     (findFlagValue "-b" args = (true, v) \/
      findFlagValue "--build-file" args = (true, v))) /\
  Gradle.buildFile c = "" /\ Gradle.rootBuildFile c = "" /\
  Gradle.explicitProjectDir c = "" /\
  (Gradle.findExplicitGradleSettingsFile ctx args = None ->
   Gradle.explicitSettingsFile c = "" /\
   Gradle.settingsFile c
   = str (Gradle.findGradleSettingsFile ctx (GetWorkingDir ctx))).
Proof.
  intros Hp Hb Hplan.
  assert (Hv : exists v, b = Abs (Getwd ctx) v /\
     (findFlagValue "-b" args = (true, v) \/
      findFlagValue "--build-file" args = (true, v))).
  { destruct (findExplicit_spec _ _ _ _ _ Hb) as (v & -> & [H | [_ H]]);
      exists v; auto. }
  revert Hplan. unfold Gradle.FindGradle. rewrite Hp, Hb.
  destruct (match Gradle.resolveGradleWrapperExecutable ctx args with
            | Some w => Some w
            | None => match Gradle.findGradleExec ctx with
                      | Some g => Some g
                      | None => None
                      end
            end) as [exe |] eqn:Hexe.
  - destruct (Gradle.findExplicitGradleSettingsFile ctx args) as [s |];
      intros [= <-]; simpl; repeat split; auto; discriminate.
  - destruct (IsExplicit ctx); discriminate.
Qed.

Lemma explicit_build_file_plan_witness :
  let ctx := testContext "/t/parent-with-explicit/child" ["/t/bin"] in
  let args := ["-b"; "explicit.gradle"; "build"] in
  exists c,
    Gradle.findExplicitProjectDir ctx args = None /\
    Gradle.findExplicitGradleBuildFile ctx args
    = Some (Abs [] "/t/parent-with-explicit/child/explicit.gradle") /\
    Gradle.FindGradle ctx args = Plan c /\
    Gradle.explicitBuildFile c = "/t/parent-with-explicit/child/explicit.gradle" /\
    Gradle.buildFile c = "" /\ Gradle.rootBuildFile c = "" /\
    Gradle.settingsFile c = "/t/parent-with-explicit/settings.gradle".
Proof.
  intros ctx args.
  resolve_plan (Gradle.FindGradle ctx args) as c Hplan.
  exists c.
  assert (Hp : Gradle.findExplicitProjectDir ctx args = None) by reflexivity.
  assert (Hb : Gradle.findExplicitGradleBuildFile ctx args
               = Some (Abs [] "/t/parent-with-explicit/child/explicit.gradle"))
    by reflexivity.
  destruct (explicit_build_file_plan ctx args _ c Hp Hb Hplan)
    as (H1 & _ & H2 & H3 & _ & H4).
  destruct H4 as [_ H4]; [reflexivity |].
  repeat split; assumption.
Defined.

(** ** Nearest and root build file *)

Lemma probe_root_is_build_probe (ctx : Context) (dir f : path) :
  probe ctx dir Gradle.rootBuildFiles = Some f ->
  probe ctx dir (Gradle.buildFiles dir) = Some f.
Proof.
  unfold Gradle.rootBuildFiles, Gradle.buildFiles. simpl.
  destruct (FileExists ctx (Join dir "build.gradle")); [trivial |].
  destruct (FileExists ctx (Join dir "build.gradle.kts")); [trivial |].
  discriminate.
Qed.

(** The nearest search visits every directory the root search visits, with
    a superset of its candidates. *)
Lemma root_found_build_found (ctx : Context) (sf : option path) (dir r : path) :
  Gradle.findGradleRootFile ctx dir sf = Some r ->
  Gradle.findGradleBuildFile ctx dir <> None.
Proof.
  induction dir as [| c up IH];
    cbn [Gradle.findGradleRootFile Gradle.findGradleBuildFile];
    [discriminate |].
  destruct (probe ctx (c :: up) Gradle.rootBuildFiles) as [f |] eqn:Hroot.
  - rewrite (probe_root_is_build_probe _ _ _ Hroot). discriminate.
  - destruct (Gradle.boundary up sf); [discriminate |].
    intros Hup. destruct (probe ctx (c :: up) (Gradle.buildFiles (c :: up)));
      [discriminate | auto].
Qed.

Lemma build_found_from_parent (ctx : Context) (pwd : path) :
  Gradle.findGradleBuildFile ctx (parentOf pwd) <> None ->
  Gradle.findGradleBuildFile ctx pwd <> None.
Proof.
  destruct pwd as [| c up]; unfold parentOf;
    cbn [tail Gradle.findGradleBuildFile]; [trivial |].
  destruct (probe ctx (c :: up) (Gradle.buildFiles (c :: up)));
    [discriminate | trivial].
Qed.

Lemma maven_root_is_build (ctx : Context) (dir : path) :
  Maven.findMavenRootFile ctx dir = Maven.findMavenBuildFile ctx dir.
Proof.
  induction dir as [| c up IH]; simpl; [reflexivity |].
  rewrite IH. reflexivity.
Qed.

Lemma maven_build_found_from_parent (ctx : Context) (pwd : path) :
  Maven.findMavenBuildFile ctx (parentOf pwd) <> None ->
  Maven.findMavenBuildFile ctx pwd <> None.
Proof.
  destruct pwd as [| c up]; simpl; [trivial |].
  destruct (FileExists ctx (Join (c :: up) "pom.xml")); [discriminate | trivial].
Qed.

(** The fallback [if noRootBuildFile != nil { rootBuildFile = buildFile }]
    on the two search results. *)
Lemma fallback_nonEmpty (root build : option path) :
  (root <> None -> build <> None) ->
  nonEmpty (str match root with Some r => Some r | None => build end)
  = nonEmpty (str build).
Proof.
  intros H. destruct root as [r |]; [| reflexivity].
  destruct build as [b |]; [| exfalso; apply H; [discriminate | reflexivity]].
  simpl. rewrite !nonEmpty_pathString. reflexivity.
Qed.

(** C10. Without [-p] and [-b] (respectively [-f]), every plan carries the
    nearest build file as [rootBuildFile] whenever the root search failed,
    and its [rootBuildFile] is non-empty exactly when its [buildFile] is;
    this holds for the gradle resolver, the maven resolver and the earlier
    maven resolver. *)
Theorem root_defaults_to_nearest (ctx : Context) (args : list string) :
  (forall c,
     Gradle.findExplicitProjectDir ctx args = None ->
     Gradle.findExplicitGradleBuildFile ctx args = None ->
     Gradle.FindGradle ctx args = Plan c ->
     Gradle.buildFile c
     = str (Gradle.findGradleBuildFile ctx (GetWorkingDir ctx)) /\
     (Gradle.findGradleRootFile ctx (parentOf (GetWorkingDir ctx))
        (Gradle.findGradleSettingsFile ctx (GetWorkingDir ctx)) = None ->
      Gradle.rootBuildFile c = Gradle.buildFile c) /\
     nonEmpty (Gradle.rootBuildFile c) = nonEmpty (Gradle.buildFile c)) /\
  (forall c,
     Maven.findExplicitMavenBuildFile ctx args = None ->
     Maven.FindMaven ctx args = Plan c ->
     Maven.buildFile c
     = str (Maven.findMavenBuildFile ctx (GetWorkingDir ctx)) /\
     (Maven.findMavenRootFile ctx (parentOf (GetWorkingDir ctx)) = None ->
      Maven.rootBuildFile c = Maven.buildFile c) /\
     nonEmpty (Maven.rootBuildFile c) = nonEmpty (Maven.buildFile c)) /\
  (forall quiet explicit c,
     Maven.findExplicitMavenBuildFile ctx args = None ->
     MavenLegacy.FindMaven ctx quiet explicit args = Plan c ->
     (Maven.findMavenRootFile ctx (parentOf (GetWorkingDir ctx)) = None ->
      MavenLegacy.rootBuildFile c = MavenLegacy.buildFile c) /\
     nonEmpty (MavenLegacy.rootBuildFile c)
     = nonEmpty (MavenLegacy.buildFile c)).
Proof.
  split; [| split].
  - intros c Hp Hb. unfold Gradle.FindGradle. rewrite Hp, Hb.
    set (pwd := GetWorkingDir ctx).
    set (sf := Gradle.findGradleSettingsFile ctx pwd).
    assert (Himp : Gradle.findGradleRootFile ctx (parentOf pwd) sf <> None ->
                   Gradle.findGradleBuildFile ctx pwd <> None).
    { destruct (Gradle.findGradleRootFile ctx (parentOf pwd) sf) as [r |] eqn:Hr;
        [| congruence].
      intros _. eapply build_found_from_parent, root_found_build_found, Hr. }
    pose proof (fallback_nonEmpty _ _ Himp) as Hne.
    destruct (match Gradle.resolveGradleWrapperExecutable ctx args with
              | Some w => Some w
              | None => match Gradle.findGradleExec ctx with
                        | Some g => Some g
                        | None => None
                        end
              end) as [exe |]; [| destruct (IsExplicit ctx); discriminate].
    destruct (Gradle.findGradleBuildFile ctx pwd) as [b |] eqn:Hbuild.
    + intros [= <-]. simpl. split; [reflexivity |]. split; [| exact Hne].
      intros ->. reflexivity.
    + destruct (Gradle.findExplicitGradleSettingsFile ctx args) as [s |].
      * intros [= <-]. simpl. split; [reflexivity |]. split; [| exact Hne].
        intros ->. reflexivity.
      * destruct sf as [s |]; [| destruct (IsExplicit ctx); discriminate].
        intros [= <-]. simpl. split; [reflexivity |]. split; [| exact Hne].
        intros ->. reflexivity.
  - intros c Hf. unfold Maven.FindMaven. rewrite Hf.
    set (pwd := GetWorkingDir ctx).
    assert (Himp : Maven.findMavenRootFile ctx (parentOf pwd) <> None ->
                   Maven.findMavenBuildFile ctx pwd <> None).
    { rewrite maven_root_is_build. apply maven_build_found_from_parent. }
    pose proof (fallback_nonEmpty _ _ Himp) as Hne.
    destruct (match Maven.findMavenWrapperExec ctx pwd with
              | Some w => Some w
              | None => match Maven.findMavenExec ctx with
                        | Some m => Some m
                        | None => None
                        end
              end) as [exe |]; [| destruct (IsExplicit ctx); discriminate].
    destruct (Maven.findMavenBuildFile ctx pwd) as [b |] eqn:Hbuild;
      [| destruct (IsExplicit ctx); discriminate].
    intros [= <-]. simpl. split; [reflexivity |]. split; [| exact Hne].
    intros ->. reflexivity.
  - intros quiet explicit c Hf. unfold MavenLegacy.FindMaven. rewrite Hf.
    set (pwd := GetWorkingDir ctx).
    assert (Himp : Maven.findMavenRootFile ctx (parentOf pwd) <> None ->
                   Maven.findMavenBuildFile ctx pwd <> None).
    { rewrite maven_root_is_build. apply maven_build_found_from_parent. }
    pose proof (fallback_nonEmpty _ _ Himp) as Hne.
    destruct (match Maven.findMavenWrapperExec ctx pwd with
              | Some w => Some w
              | None => match Maven.findMavenExec ctx with
                        | Some m => Some m
                        | None => None
                        end
              end) as [exe |]; [| destruct explicit; discriminate].
    destruct (Maven.findMavenBuildFile ctx pwd) as [b |] eqn:Hbuild;
      [| destruct explicit; discriminate].
    intros [= <-]. simpl. split; [| exact Hne].
    intros ->. reflexivity.
Qed.

Lemma root_defaults_to_nearest_witness :
  let ctx := testContext "/t/single-with-wrapper" ["/t/bin"] in
  let mctx := mavenContext "/m/single" ["/m/bin"] in
  (exists c,
     Gradle.findExplicitProjectDir ctx [] = None /\
     Gradle.findExplicitGradleBuildFile ctx [] = None /\
     Gradle.FindGradle ctx [] = Plan c /\
     Gradle.findGradleRootFile ctx (parentOf (GetWorkingDir ctx))
       (Gradle.findGradleSettingsFile ctx (GetWorkingDir ctx)) = None /\
     Gradle.rootBuildFile c = Gradle.buildFile c /\
     nonEmpty (Gradle.rootBuildFile c) = nonEmpty (Gradle.buildFile c)) /\
  (exists c,
     Maven.findExplicitMavenBuildFile mctx [] = None /\
     Maven.FindMaven mctx [] = Plan c /\
     Maven.rootBuildFile c = Maven.buildFile c).
Proof.
  intros ctx mctx. split.
  - resolve_plan (Gradle.FindGradle ctx []) as c Hplan.
    exists c.
    destruct (root_defaults_to_nearest ctx []) as [G _].
    destruct (G c) as (_ & Hfall & Hne); [reflexivity | reflexivity | exact Hplan |].
    repeat split; try reflexivity; [apply Hfall; reflexivity | exact Hne].
  - resolve_plan (Maven.FindMaven mctx []) as c Hplan.
    exists c.
    destruct (root_defaults_to_nearest mctx []) as (_ & M & _).
    destruct (M c) as (_ & Hfall & _); [reflexivity | exact Hplan |].
    repeat split; try reflexivity. apply Hfall. reflexivity.
Defined.

(** ** The root build file search *)

Lemma probe_some (ctx : Context) (dir : path) (names : list string) (f : path) :
  probe ctx dir names = Some f ->
  exists n, n ∈ names /\ f = Join dir n /\ FileExists ctx f = true.
Proof.
  induction names as [| n rest IH]; simpl; [discriminate |].
  destruct (FileExists ctx (Join dir n)) eqn:Hn.
  - intros [= <-]. exists n. split; [left | auto].
  - intros H. destruct (IH H) as (m & Hm & Hf & He).
    exists m. split; [right; exact Hm | auto].
Qed.

Lemma root_search_sound (ctx : Context) (sf : option path) (dir f : path) :
  Gradle.findGradleRootFile ctx dir sf = Some f ->
  nearestRootCandidate ctx dir f.
Proof.
  induction dir as [| c up IH]; cbn [Gradle.findGradleRootFile];
    [discriminate |].
  destruct (probe ctx (c :: up) Gradle.rootBuildFiles) as [g |] eqn:Hprobe.
  - intros [= <-]. exists [], (c :: up).
    repeat split; [discriminate | exact Hprobe | simpl; lia].
  - destruct (Gradle.boundary up sf); [discriminate |].
    intros Hup. destruct (IH Hup) as (below & d & -> & Hd & Hf & Hnone).
    exists (c :: below), d. repeat split; [exact Hd | exact Hf |].
    intros [| k] Hk; [exact Hprobe |].
    simpl in Hk. apply (Hnone k). lia.
Qed.

Lemma root_search_complete (ctx : Context) (dir f : path) :
  nearestRootCandidate ctx dir f ->
  Gradle.findGradleRootFile ctx dir None = Some f.
Proof.
  intros (below & d & -> & Hd & Hf & Hnone).
  induction below as [| c below IH]; simpl app.
  - destruct d as [| c up]; [congruence |].
    cbn [Gradle.findGradleRootFile]. simpl app in Hf. rewrite Hf. reflexivity.
  - cbn [Gradle.findGradleRootFile].
    pose proof (Hnone 0) as Hhere. cbn [drop app length] in Hhere.
    rewrite Hhere by lia.
    cbn [Gradle.boundary]. apply IH.
    intros k Hk. specialize (Hnone (S k)).
    cbn [drop app length] in Hnone. apply Hnone. lia.
Qed.

Lemma probeNotInParent_some (env : Context) (dir parentdir : path)
    (names : list string) (f : path) :
  GradleLegacy.probeNotInParent env dir parentdir names = Some f ->
  exists n, n ∈ names /\ f = Join dir n /\ FileExists env f = true /\
            FileExists env (Join parentdir n) = false.
Proof.
  induction names as [| n rest IH]; simpl; [discriminate |].
  destruct (FileExists env (Join dir n)) eqn:Hn; simpl.
  - destruct (FileExists env (Join parentdir n)) eqn:Hp; simpl.
    + intros H. destruct (IH H) as (m & Hm & Hrest).
      exists m. split; [right; exact Hm | exact Hrest].
    + intros [= <-]. exists n. split; [left | auto].
  - intros H. destruct (IH H) as (m & Hm & Hrest).
    exists m. split; [right; exact Hm | exact Hrest].
Qed.

(** C1 (amended). The root build file search of the current sources
    returns the first root candidate ([build.gradle], then
    [build.gradle.kts]) met on the walk upward from its start directory;
    the same-named file of the parent is not consulted, and without a
    boundary every such candidate is returned.  The earlier search tests
    the parent for the start directory only and otherwise returns the
    nearest build file from the parent upward. *)
Theorem root_file_is_first_candidate (ctx : Context) (sf : option path)
    (dir f : path) :
  (Gradle.findGradleRootFile ctx dir sf = Some f ->
   nearestRootCandidate ctx dir f /\ FileExists ctx f = true /\
   Base f ∈ Gradle.rootBuildFiles) /\
  (nearestRootCandidate ctx dir f ->
   Gradle.findGradleRootFile ctx dir None = Some f) /\
  (GradleLegacy.findGradleRootFile ctx dir = Some f ->
   (Dir f = dir /\ FileExists ctx f = true /\
    FileExists ctx (Join (parentOf dir) (Base f)) = false) \/
   GradleLegacy.findGradleBuildFile ctx (parentOf dir) = Some f).
Proof.
  split; [| split].
  - intros H. pose proof (root_search_sound _ _ _ _ H) as Hn.
    split; [exact Hn |].
    destruct Hn as (below & d & _ & _ & Hf & _).
    destruct (probe_some _ _ _ _ Hf) as (n & Hin & -> & He).
    split; [exact He | exact Hin].
  - apply root_search_complete.
  - destruct dir as [| c up]; unfold GradleLegacy.findGradleRootFile;
      [discriminate |].
    destruct (GradleLegacy.probeNotInParent ctx (c :: up) up
                Gradle.rootBuildFiles) as [g |] eqn:Hprobe.
    + intros [= <-]. left.
      destruct (probeNotInParent_some _ _ _ _ _ Hprobe)
        as (n & _ & -> & He & Hp).
      repeat split; [exact He | exact Hp].
    + intros H. right. exact H.
Qed.

Lemma root_file_is_first_candidate_witness :
  let ctx := testContext "/t/parent-with-wrapper/child" ["/t/bin"] in
  let dir := Abs [] "/t/parent-with-wrapper/child" in
  let f := Abs [] "/t/parent-with-wrapper/child/build.gradle" in
  Gradle.findGradleRootFile ctx dir None = Some f /\
  nearestRootCandidate ctx dir f /\ FileExists ctx f = true.
Proof.
  intros ctx dir f.
  assert (H : Gradle.findGradleRootFile ctx dir None = Some f) by reflexivity.
  destruct (root_file_is_first_candidate ctx None dir f) as [Hsound _].
  destruct (Hsound H) as (Hn & He & _).
  repeat split; assumption.
Defined.

(** C1, the claim as stated fails: with [build.gradle] in [/a] and in
    [/a/b], the root search started at [/a/b] (the parent of the working
    directory [/a/b/c]) returns [/a/b/build.gradle] although the parent
    holds the same name, and so does the earlier search started at
    [/a/b/c]; the plan carries that file as its root build file. *)
Lemma root_file_parent_counterexample :
  let inner := Abs [] "/a/b/build.gradle" in
  Gradle.findGradleRootFile chainContext (Abs [] "/a/b") None = Some inner /\
  GradleLegacy.findGradleRootFile chainContext (Abs [] "/a/b/c") = Some inner /\
  FileExists chainContext (Join (parentOf (Dir inner)) (Base inner)) = true /\
  (exists c, Gradle.FindGradle chainContext [] = Plan c /\
             Gradle.rootBuildFile c = "/a/b/build.gradle") /\
  (exists c, GradleLegacy.FindGradle chainContext true true [] = Plan c /\
             GradleLegacy.rootBuildFile c = "/a/b/build.gradle").
Proof.
  intros inner. repeat split; try reflexivity.
  - eexists. split; vm_compute; reflexivity.
  - eexists. split; vm_compute; reflexivity.
Qed.

(** ** The settings boundary of the root search *)

Lemma boundary_some (parentdir sf : path) :
  Gradle.boundary parentdir (Some sf) = true <->
  pathLen parentdir <= pathLen (Dir sf).
Proof. unfold Gradle.boundary. apply Nat.leb_le. Qed.

Lemma root_search_within_boundary (ctx : Context) (sf dir r : path) :
  Gradle.findGradleRootFile ctx dir (Some sf) = Some r ->
  Dir r = dir \/ pathLen (Dir sf) < pathLen (Dir r).
Proof.
  induction dir as [| c up IH]; cbn [Gradle.findGradleRootFile];
    [discriminate |].
  destruct (probe ctx (c :: up) Gradle.rootBuildFiles) as [g |] eqn:Hprobe.
  - intros [= <-]. left.
    destruct (probe_some _ _ _ _ Hprobe) as (n & _ & -> & _). reflexivity.
  - destruct (Gradle.boundary up (Some sf)) eqn:Hb; [discriminate |].
    intros Hup. right.
    assert (Hlen : pathLen (Dir sf) < pathLen up).
    { apply Nat.leb_gt. exact Hb. }
    destruct (IH Hup) as [-> | Hdeeper]; [exact Hlen | exact Hdeeper].
Qed.

(** C8 (amended). With a settings file as boundary, the root search probes
    its start directory unconditionally; after a miss it reports NotFound
    when the parent's path is not longer than the path of the settings
    directory, and moves to the parent otherwise.  A returned root build
    file is therefore in the start directory or in a directory whose path
    is strictly longer than the path of the settings directory. *)
Theorem root_search_boundary (ctx : Context) (sf dir r : path) :
  (dir <> [] -> probe ctx dir Gradle.rootBuildFiles = Some r ->
   Gradle.findGradleRootFile ctx dir (Some sf) = Some r) /\
  (probe ctx dir Gradle.rootBuildFiles = None ->
   pathLen (parentOf dir) <= pathLen (Dir sf) ->
   Gradle.findGradleRootFile ctx dir (Some sf) = None) /\
  (probe ctx dir Gradle.rootBuildFiles = None ->
   pathLen (Dir sf) < pathLen (parentOf dir) ->
   Gradle.findGradleRootFile ctx dir (Some sf)
   = Gradle.findGradleRootFile ctx (parentOf dir) (Some sf)) /\
  (Gradle.findGradleRootFile ctx dir (Some sf) = Some r ->
   Dir r = dir \/ pathLen (Dir sf) < pathLen (Dir r)).
Proof.
  split; [| split; [| split]].
  - destruct dir as [| c up]; [congruence |].
    intros _ Hprobe. cbn [Gradle.findGradleRootFile]. rewrite Hprobe.
    reflexivity.
  - destruct dir as [| c up]; [reflexivity |].
    intros Hprobe Hlen. cbn [Gradle.findGradleRootFile]. rewrite Hprobe.
    unfold parentOf in Hlen; cbn [tail] in Hlen.
    apply boundary_some in Hlen. rewrite Hlen. reflexivity.
  - destruct dir as [| c up]; [reflexivity |].
    intros Hprobe Hlen. cbn [Gradle.findGradleRootFile]. rewrite Hprobe.
    unfold parentOf in *; cbn [tail] in *.
    destruct (Gradle.boundary up (Some sf)) eqn:Hb; [| reflexivity].
    apply boundary_some in Hb. lia.
  - apply root_search_within_boundary.
Qed.

Lemma root_search_boundary_witness :
  let ctx := treeContext [ "/p/settings.gradle"; "/p/build.gradle";
                           "/p/a/b/build.gradle" ] "/p/a/b" [] true plainConfig in
  let sf := Abs [] "/p/settings.gradle" in
  let dir := Abs [] "/p/a" in
  probe ctx dir Gradle.rootBuildFiles = None /\
  pathLen (parentOf dir) <= pathLen (Dir sf) /\
  Gradle.findGradleRootFile ctx dir (Some sf) = None.
Proof.
  intros ctx sf dir.
  assert (Hprobe : probe ctx dir Gradle.rootBuildFiles = None) by reflexivity.
  assert (Hlen : pathLen (parentOf dir) <= pathLen (Dir sf)).
  { vm_compute. lia. }
  destruct (root_search_boundary ctx sf dir []) as (_ & Hstop & _).
  split; [exact Hprobe |]. split; [exact Hlen |].
  exact (Hstop Hprobe Hlen).
Defined.

(** C8, the claim as stated fails: the working directory [/a/p] holds the
    settings file and [/a] holds a build file; the root search starts at
    [/a], which is already shallower than the settings directory, probes
    it and returns [/a/build.gradle]; the plan carries it. *)
Lemma root_search_escapes_counterexample :
  let sf := Abs [] "/a/p/settings.gradle" in
  let r := Abs [] "/a/build.gradle" in
  Gradle.findGradleSettingsFile nestedContext (GetWorkingDir nestedContext)
  = Some sf /\
  Gradle.findGradleRootFile nestedContext
    (parentOf (GetWorkingDir nestedContext)) (Some sf) = Some r /\
  shallower (Dir r) (Dir sf) /\
  exists c, Gradle.FindGradle nestedContext [] = Plan c /\
            Gradle.rootBuildFile c = "/a/build.gradle" /\
            Gradle.settingsFile c = "/a/p/settings.gradle".
Proof.
  intros sf r. split; [reflexivity |]. split; [reflexivity |].
  split; [unfold shallower; vm_compute; lia |].
  eexists. split; [vm_compute; reflexivity |]. split; reflexivity.
Qed.

(** ** What the rewriter receives *)

Lemma configure_oargs (c : Gradle.GradleCommand) :
  Gradle.oargs (Gradle.doConfigureGradle c)
  = snd (GrabFlag "-gr" (snd (GrabFlag "-gd" (snd (GrabFlag "-gn" (Gradle.args c)))))).
Proof. reflexivity. Qed.

Lemma configure_nearest (c : Gradle.GradleCommand) :
  Gradle.nearest (Gradle.doConfigureGradle c) = findFlag "-gn" (Gradle.args c).
Proof. reflexivity. Qed.

Lemma configure_rargs (c : Gradle.GradleCommand) :
  Gradle.rargs (Gradle.doConfigureGradle c)
  = Gradle.replaceGradleTasks (Gradle.finalConfig (Gradle.doConfigureGradle c))
      (Gradle.oargs (Gradle.doConfigureGradle c)).
Proof. reflexivity. Qed.

Lemma configure_finalArgs (c : Gradle.GradleCommand) :
  Gradle.finalArgs (Gradle.doConfigureGradle c)
  = fst (Gradle.toolSelection c (Gradle.nearest (Gradle.doConfigureGradle c)))
    ++ Gradle.rargs (Gradle.doConfigureGradle c).
Proof. reflexivity. Qed.

(** C3 (amended). [doConfigureGradle] hands the rewriter the argument list
    with exactly the meta-flags [-gn], [-gd] and [-gr] removed: every
    other token, the tool-selection flags [-b], [-c], [-p], [-f] and their
    values included, is still there in its original order; the rewritten
    list is appended after the flags the resolver adds. *)
Theorem rewriter_input_is_meta_stripped (c : Gradle.GradleCommand) :
  let r := Gradle.doConfigureGradle c in
  Gradle.oargs r
  = filter (λ s, s ≠ "-gr" /\ s ≠ "-gd" /\ s ≠ "-gn") (Gradle.args c) /\
  (forall t, t ∈ Gradle.oargs r <->
             t ∈ Gradle.args c /\ t ≠ "-gn" /\ t ≠ "-gd" /\ t ≠ "-gr") /\
  Gradle.rargs r = Gradle.replaceGradleTasks (Gradle.finalConfig r) (Gradle.oargs r) /\
  Gradle.finalArgs r
  = fst (Gradle.toolSelection c (Gradle.nearest r)) ++ Gradle.rargs r.
Proof.
  intros r. subst r.
  assert (Hfilter : Gradle.oargs (Gradle.doConfigureGradle c)
    = filter (λ s, s ≠ "-gr" /\ s ≠ "-gd" /\ s ≠ "-gn") (Gradle.args c)).
  { rewrite configure_oargs. unfold GrabFlag. cbn [snd].
    rewrite (filter_filter_and (λ s : string, s ≠ "-gd") (λ s, s ≠ "-gn")).
    rewrite filter_filter_and. reflexivity. }
  split; [exact Hfilter |]. split; [| split; reflexivity].
  intros t. rewrite Hfilter, list_elem_of_filter. tauto.
Qed.

(** C3, the claim as stated fails: an explicit [-b <path>] stays in the
    list the rewriter receives, and a mapping table keyed by [-b] makes the
    rewriter substitute it. *)
Lemma rewriter_sees_build_flag_counterexample :
  let args := ["-gn"; "-b"; "explicit.gradle"; "b"] in
  exists c, Gradle.FindGradle aliasContext args = Plan c /\
    Gradle.explicitBuildFile c = "/t/parent-with-explicit/child/explicit.gradle" /\
    Gradle.oargs (Gradle.doConfigureGradle c) = ["-b"; "explicit.gradle"; "b"] /\
    Gradle.rargs (Gradle.doConfigureGradle c)
    = ["--offline"; "explicit.gradle"; "build"] /\
    Gradle.finalArgs (Gradle.doConfigureGradle c)
    = ["-c"; "/t/parent-with-explicit/settings.gradle";
       "--offline"; "explicit.gradle"; "build"].
Proof.
  intros args. eexists. split; [vm_compute; reflexivity |].
  repeat split; vm_compute; reflexivity.
Qed.

(** ** No build file, no build-file flag *)

Lemma FindGradle_settingsFile (ctx : Context) (args : list string)
    (c : Gradle.GradleCommand) :
  Gradle.FindGradle ctx args = Plan c ->
  exists o, Gradle.settingsFile c = str o.
Proof.
  unfold Gradle.FindGradle.
  destruct (match Gradle.resolveGradleWrapperExecutable ctx args with
            | Some w => Some w
            | None => match Gradle.findGradleExec ctx with
                      | Some g => Some g
                      | None => None
                      end
            end) as [exe |]; [| destruct (IsExplicit ctx); discriminate].
  destruct (Gradle.findExplicitProjectDir ctx args) as [d |];
    [intros [= <-]; exists None; reflexivity |].
  set (found := Gradle.findGradleSettingsFile ctx (GetWorkingDir ctx)).
  destruct (Gradle.findExplicitGradleBuildFile ctx args) as [b |].
  { destruct (Gradle.findExplicitGradleSettingsFile ctx args) as [s |];
      intros [= <-]; [exists None | exists found]; reflexivity. }
  destruct (Gradle.findGradleBuildFile ctx (GetWorkingDir ctx)) as [b |].
  { intros [= <-]. exists found; reflexivity. }
  destruct (Gradle.findExplicitGradleSettingsFile ctx args) as [s |].
  { intros [= <-]. exists None; reflexivity. }
  destruct found as [s |] eqn:Hfound;
    [| destruct (IsExplicit ctx); discriminate].
  intros [= <-]. exists (Some s); reflexivity.
Qed.

Lemma str_not_dash (o : option path) (t : string) : str o <> String "-" t.
Proof.
  destruct o as [p |]; simpl; [apply pathString_not_dash | discriminate].
Qed.

(** The flags [doConfigureGradle] adds when no build file is known. *)
Lemma toolSelection_no_build_file (c : Gradle.GradleCommand) (nearest : bool) :
  Gradle.explicitBuildFile c = "" -> Gradle.buildFile c = "" ->
  Gradle.rootBuildFile c = "" ->
  fst (Gradle.toolSelection c nearest)
  = if nonEmpty (Gradle.explicitProjectDir c)
       || nonEmpty (Gradle.explicitSettingsFile c)
       || negb (nonEmpty (Gradle.settingsFile c))
    then [] else ["-c"; Gradle.settingsFile c].
Proof.
  intros He Hb Hr. unfold Gradle.toolSelection, Gradle.buildFileChoice.
  rewrite He, Hb, Hr. rewrite andb_false_r. cbn [nonEmpty String.eqb negb].
  unfold Gradle.settingsChoice.
  destruct (nonEmpty (Gradle.explicitProjectDir c)); [reflexivity |].
  destruct (nonEmpty (Gradle.explicitSettingsFile c)); [reflexivity |].
  destruct (nonEmpty (Gradle.settingsFile c)); reflexivity.
Qed.

(** C2 (amended). When [explicitBuildFile], [buildFile] and
    [rootBuildFile] are all empty, the current [Execute] steps put no
    [-b] / [-f] in front of the user's arguments: the gradle vector is the
    rewritten arguments, preceded only by [-c settingsFile] when a settings
    file was discovered and neither [-p] nor an explicit settings file is
    given, and the maven vector is the arguments without the meta-flags.
    The vector of a resolved gradle plan holds [-b] exactly when the
    rewritten arguments do, the maven vector holds [-f] exactly when the
    user's arguments do. *)
Theorem no_build_file_adds_no_flag :
  (forall c : Gradle.GradleCommand,
     Gradle.explicitBuildFile c = "" -> Gradle.buildFile c = "" ->
     Gradle.rootBuildFile c = "" ->
     Gradle.finalArgs (Gradle.doConfigureGradle c)
     = (if nonEmpty (Gradle.explicitProjectDir c)
           || nonEmpty (Gradle.explicitSettingsFile c)
           || negb (nonEmpty (Gradle.settingsFile c))
        then [] else ["-c"; Gradle.settingsFile c])
       ++ Gradle.rargs (Gradle.doConfigureGradle c)) /\
  (forall ctx args (c : Gradle.GradleCommand),
     Gradle.FindGradle ctx args = Plan c ->
     Gradle.explicitBuildFile c = "" -> Gradle.buildFile c = "" ->
     Gradle.rootBuildFile c = "" ->
     ("-b" ∈ Gradle.finalArgs (Gradle.doConfigureGradle c) <->
      "-b" ∈ Gradle.rargs (Gradle.doConfigureGradle c))) /\
  (forall c : Maven.MavenCommand,
     Maven.explicitBuildFile c = "" -> Maven.buildFile c = "" ->
     Maven.rootBuildFile c = "" ->
     Maven.finalArgs (Maven.Execute c)
     = filter (λ s, s ≠ "-gd" /\ s ≠ "-gn") (Maven.args c) /\
     ("-f" ∈ Maven.finalArgs (Maven.Execute c) <-> "-f" ∈ Maven.args c)).
Proof.
  split; [| split].
  - intros c He Hb Hr. rewrite configure_finalArgs.
    rewrite (toolSelection_no_build_file c _ He Hb Hr). reflexivity.
  - intros ctx args c Hplan He Hb Hr. rewrite configure_finalArgs.
    rewrite (toolSelection_no_build_file c _ He Hb Hr).
    destruct (FindGradle_settingsFile _ _ _ Hplan) as [o Ho].
    destruct (nonEmpty (Gradle.explicitProjectDir c)
              || nonEmpty (Gradle.explicitSettingsFile c)
              || negb (nonEmpty (Gradle.settingsFile c))); [reflexivity |].
    cbn [app]. rewrite !elem_of_cons. split; [| tauto].
    intros [H | [H | H]]; [discriminate | | exact H].
    exfalso. rewrite Ho in H. symmetry in H. exact (str_not_dash _ _ H).
  - intros c He Hb Hr.
    assert (Hargs : Maven.finalArgs (Maven.Execute c)
                    = filter (λ s, s ≠ "-gd" /\ s ≠ "-gn") (Maven.args c)).
    { unfold Maven.Execute, GrabFlag. cbn [Maven.finalArgs].
      unfold Maven.toolSelection. rewrite He, Hb, Hr.
      rewrite andb_false_r. cbn [nonEmpty String.eqb negb fst app].
      apply filter_filter_and. }
    split; [exact Hargs |].
    rewrite Hargs, list_elem_of_filter. split; [tauto |].
    intros H. split; [| exact H]. split; discriminate.
Qed.

Lemma legacy_settings_only_plan :
  GradleLegacy.FindGradle settingsOnlyContext true true ["build"]
  = Plan legacySettingsOnly.
Proof. vm_compute. reflexivity. Qed.

Lemma no_build_file_adds_no_flag_witness :
  exists c,
    Gradle.FindGradle settingsOnlyContext ["build"] = Plan c /\
    Gradle.explicitBuildFile c = "" /\ Gradle.buildFile c = "" /\
    Gradle.rootBuildFile c = "" /\
    Gradle.finalArgs (Gradle.doConfigureGradle c)
    = ["-c"; "/s/settings.gradle"] ++ Gradle.rargs (Gradle.doConfigureGradle c) /\
    ("-b" ∈ Gradle.finalArgs (Gradle.doConfigureGradle c) <->
     "-b" ∈ Gradle.rargs (Gradle.doConfigureGradle c)).
Proof.
  resolve_plan (Gradle.FindGradle settingsOnlyContext ["build"]) as c Hplan.
  exists c.
  assert (Hc : c = Gradle.command (setQuiet true plainConfig) "/bin/gradle"
                     ["build"] "" "" "" "" "/s/settings.gradle" "").
  { vm_compute in Hplan. injection Hplan as <-. reflexivity. }
  assert (He : Gradle.explicitBuildFile c = "") by (rewrite Hc; reflexivity).
  assert (Hb : Gradle.buildFile c = "") by (rewrite Hc; reflexivity).
  assert (Hr : Gradle.rootBuildFile c = "") by (rewrite Hc; reflexivity).
  destruct no_build_file_adds_no_flag as (Hshape & Hiff & _).
  split; [reflexivity |]. split; [exact He |]. split; [exact Hb |].
  split; [exact Hr |]. split.
  - rewrite (Hshape c He Hb Hr). rewrite Hc. reflexivity.
  - exact (Hiff settingsOnlyContext ["build"] c Hplan He Hb Hr).
Defined.

(** C2, the claim as stated fails.  Current sources: with [-p] the plan
    has all three build-file fields empty and a [-b] of the user stays in
    the vector.  Earlier sources: [Execute] pushes [-b] with an empty
    value for a project that has only a settings file. *)
Lemma no_build_file_flag_counterexample :
  (let ctx := testContext "/t/parent-with-wrapper/child" ["/t/bin"] in
   let args := ["-p"; "/t/parent-with-wrapper"; "-b"; "other.gradle"] in
   exists c, Gradle.FindGradle ctx args = Plan c /\
     Gradle.explicitBuildFile c = "" /\ Gradle.buildFile c = "" /\
     Gradle.rootBuildFile c = "" /\
     snd (Gradle.Execute c) = args /\
     "-b" ∈ snd (Gradle.Execute c)) /\
  (GradleLegacy.FindGradle settingsOnlyContext true true ["build"]
   = Plan legacySettingsOnly /\
   GradleLegacy.explicitBuildFile legacySettingsOnly = "" /\
   GradleLegacy.buildFile legacySettingsOnly = "" /\
   GradleLegacy.rootBuildFile legacySettingsOnly = "" /\
   snd (GradleLegacy.Execute legacySettingsOnly)
   = ["-b"; ""; "-c"; "/s/settings.gradle"; "build"] /\
   "-b" ∈ snd (GradleLegacy.Execute legacySettingsOnly)).
Proof.
  split.
  - intros ctx args. eexists. split; [vm_compute; reflexivity |].
    repeat split; try (vm_compute; reflexivity).
    apply (bool_decide_unpack _). vm_compute. exact I.
  - repeat split; try (vm_compute; reflexivity).
    apply (bool_decide_unpack _). vm_compute. exact I.
Qed.

(** ** Nearest against root in [Execute] *)

Lemma root_search_start (ctx : Context) (sf : option path) (dir r : path) :
  dir <> [] -> probe ctx dir Gradle.rootBuildFiles = Some r ->
  Gradle.findGradleRootFile ctx dir sf = Some r.
Proof.
  destruct dir as [| c up]; [congruence |].
  intros _ Hprobe. cbn [Gradle.findGradleRootFile]. rewrite Hprobe. reflexivity.
Qed.

(** The choice of [doConfigureGradle] when both files were discovered. *)
Lemma configure_prefers (c : Gradle.GradleCommand) :
  Gradle.explicitProjectDir c = "" -> Gradle.explicitBuildFile c = "" ->
  nonEmpty (Gradle.buildFile c) = true ->
  nonEmpty (Gradle.rootBuildFile c) = true ->
  exists rest,
    Gradle.finalArgs (Gradle.doConfigureGradle c)
    = "-b" :: (if findFlag "-gn" (Gradle.args c)
               then Gradle.buildFile c else Gradle.rootBuildFile c) :: rest.
Proof.
  intros Hp He Hb Hr. rewrite configure_finalArgs, configure_nearest.
  unfold Gradle.toolSelection, Gradle.buildFileChoice.
  rewrite Hp, He, Hb, Hr. cbn [nonEmpty String.eqb negb].
  rewrite andb_true_r.
  destruct (findFlag "-gn" (Gradle.args c));
    [destruct (Gradle.settingsChoice c true) as [sflags sbanner]
    | destruct (Gradle.settingsChoice c true) as [sflags sbanner]];
    cbn [fst app]; eexists; reflexivity.
Qed.

(** The diagnostic dump lists the root build file whenever it is printed. *)
Lemma dump_lists_root (c : Gradle.GradleCommand) :
  general_debug (Gradle.finalConfig (Gradle.doConfigureGradle c)) = true ->
  println2 "rootBuildFile        = " (Gradle.rootBuildFile c)
  ∈ Gradle.stdout (Gradle.doConfigureGradle c).
Proof.
  intros Hdebug.
  change (Gradle.stdout (Gradle.doConfigureGradle c)) with
    (Gradle.debugGradle c (Gradle.finalConfig (Gradle.doConfigureGradle c))
       (Gradle.nearest (Gradle.doConfigureGradle c))
       (Gradle.oargs (Gradle.doConfigureGradle c))
       (Gradle.rargs (Gradle.doConfigureGradle c))
       (Gradle.finalArgs (Gradle.doConfigureGradle c))
     ++ (if negb (general_quiet (Gradle.finalConfig (Gradle.doConfigureGradle c)))
         then [joinWith " " (Gradle.banner (Gradle.doConfigureGradle c))]
         else [])).
  unfold Gradle.debugGradle. rewrite Hdebug.
  apply elem_of_app. left. apply elem_of_app. left.
  apply list_elem_of_further, list_elem_of_here.
Qed.

Lemma maven_execute_prefers (c : Maven.MavenCommand) :
  Maven.explicitBuildFile c = "" ->
  nonEmpty (Maven.buildFile c) = true ->
  nonEmpty (Maven.rootBuildFile c) = true ->
  exists rest,
    Maven.finalArgs (Maven.Execute c)
    = "-f" :: (if findFlag "-gn" (Maven.args c)
               then Maven.buildFile c else Maven.rootBuildFile c) :: rest.
Proof.
  intros He Hb Hr. unfold Maven.Execute, GrabFlag. cbn [Maven.finalArgs].
  unfold Maven.toolSelection, findFlag. rewrite He, Hb, Hr.
  cbn [nonEmpty String.eqb negb]. rewrite andb_true_r.
  destruct (bool_decide ("-gn" ∈ Maven.args c)); cbn [fst app];
    eexists; reflexivity.
Qed.

Lemma maven_dump_lists_root (c : Maven.MavenCommand) :
  "-gd" ∈ Maven.args c ->
  println2 "rootBuildFile      = " (Maven.rootBuildFile c)
  ∈ Maven.stdout (Maven.Execute c).
Proof.
  intros Hgd. unfold Maven.Execute, GrabFlag. cbn [Maven.stdout].
  assert (Hin : "-gd" ∈ filter (λ s, s ≠ "-gn") (Maven.args c)).
  { apply list_elem_of_filter. split; [discriminate | exact Hgd]. }
  rewrite (bool_decide_eq_true_2 _ Hin).
  apply elem_of_app. left.
  do 2 apply list_elem_of_further. apply list_elem_of_here.
Qed.

Lemma FindGradle_child_and_parent (ctx : Context) (args : list string)
    (child : string) (up n r : path) (c : Gradle.GradleCommand) :
  GetWorkingDir ctx = child :: up -> up <> [] ->
  probe ctx (child :: up) (Gradle.buildFiles (child :: up)) = Some n ->
  probe ctx up Gradle.rootBuildFiles = Some r ->
  Gradle.findExplicitProjectDir ctx args = None ->
  Gradle.findExplicitGradleBuildFile ctx args = None ->
  Gradle.FindGradle ctx args = Plan c ->
  Gradle.explicitProjectDir c = "" /\ Gradle.explicitBuildFile c = "" /\
  Gradle.buildFile c = pathString n /\ Gradle.rootBuildFile c = pathString r /\
  Gradle.args c = args.
Proof.
  intros Hpwd Hup Hn Hr Hp Hb. unfold Gradle.FindGradle.
  rewrite Hp, Hb, Hpwd. unfold parentOf. cbn [tail].
  rewrite (root_search_start ctx _ up r Hup Hr).
  cbn [Gradle.findGradleBuildFile]. rewrite Hn.
  destruct (match Gradle.resolveGradleWrapperExecutable ctx args with
            | Some w => Some w
            | None => match Gradle.findGradleExec ctx with
                      | Some g => Some g
                      | None => None
                      end
            end) as [exe |]; [| destruct (IsExplicit ctx); discriminate].
  intros [= <-]. repeat split.
Qed.

Lemma FindMaven_child_and_parent (ctx : Context) (args : list string)
    (child : string) (up : path) (c : Maven.MavenCommand) :
  GetWorkingDir ctx = child :: up -> up <> [] ->
  FileExists ctx (Join (child :: up) "pom.xml") = true ->
  FileExists ctx (Join up "pom.xml") = true ->
  Maven.findExplicitMavenBuildFile ctx args = None ->
  Maven.FindMaven ctx args = Plan c ->
  Maven.explicitBuildFile c = "" /\
  Maven.buildFile c = pathString (Join (child :: up) "pom.xml") /\
  Maven.rootBuildFile c = pathString (Join up "pom.xml") /\
  Maven.args c = args.
Proof.
  intros Hpwd Hup Hn Hr Hf. unfold Maven.FindMaven.
  rewrite Hf, Hpwd. unfold parentOf. cbn [tail].
  destruct up as [| p up']; [congruence |].
  cbn [Maven.findMavenRootFile Maven.findMavenBuildFile]. rewrite Hn, Hr.
  destruct (match Maven.findMavenWrapperExec ctx (child :: p :: up') with
            | Some w => Some w
            | None => match Maven.findMavenExec ctx with
                      | Some m => Some m
                      | None => None
                      end
            end) as [exe |]; [| destruct (IsExplicit ctx); discriminate].
  intros [= <-]. repeat split.
Qed.

(** C4 (amended). Let the working directory hold a build file and its
    parent, which is not the filesystem root, hold a root candidate
    ([build.gradle] or [build.gradle.kts]; [pom.xml] for maven), with no
    explicit project directory or build file.  Without [-gn] the plan's
    [Execute] passes the parent's file after [-b] ([-f]); with [-gn] it
    passes the nearest file, and the diagnostic dump, when it is printed
    (debug enabled; [-gd] for maven), still lists the parent's file as
    root build file. *)
Theorem root_preferred_unless_nearest (ctx : Context) (args : list string)
    (child : string) (up : path) :
  GetWorkingDir ctx = child :: up -> up <> [] ->
  (forall n r c,
     probe ctx (child :: up) (Gradle.buildFiles (child :: up)) = Some n ->
     probe ctx up Gradle.rootBuildFiles = Some r ->
     Gradle.findExplicitProjectDir ctx args = None ->
     Gradle.findExplicitGradleBuildFile ctx args = None ->
     Gradle.FindGradle ctx args = Plan c ->
     Gradle.buildFile c = pathString n /\
     Gradle.rootBuildFile c = pathString r /\
     ("-gn" ∉ args ->
        exists rest, snd (Gradle.Execute c) = "-b" :: pathString r :: rest) /\
     ("-gn" ∈ args ->
        (exists rest, snd (Gradle.Execute c) = "-b" :: pathString n :: rest) /\
        (general_debug (Gradle.finalConfig (Gradle.doConfigureGradle c)) = true ->
         println2 "rootBuildFile        = " (pathString r)
         ∈ Gradle.stdout (Gradle.doConfigureGradle c)))) /\
  (forall c,
     FileExists ctx (Join (child :: up) "pom.xml") = true ->
     FileExists ctx (Join up "pom.xml") = true ->
     Maven.findExplicitMavenBuildFile ctx args = None ->
     Maven.FindMaven ctx args = Plan c ->
     Maven.buildFile c = pathString (Join (child :: up) "pom.xml") /\
     Maven.rootBuildFile c = pathString (Join up "pom.xml") /\
     ("-gn" ∉ args ->
        exists rest, Maven.finalArgs (Maven.Execute c)
                     = "-f" :: pathString (Join up "pom.xml") :: rest) /\
     ("-gn" ∈ args ->
        (exists rest, Maven.finalArgs (Maven.Execute c)
                      = "-f" :: pathString (Join (child :: up) "pom.xml") :: rest) /\
        ("-gd" ∈ args ->
         println2 "rootBuildFile      = " (pathString (Join up "pom.xml"))
         ∈ Maven.stdout (Maven.Execute c)))).
Proof.
  intros Hpwd Hup. split.
  - intros n r c Hn Hr Hp Hb Hplan.
    destruct (FindGradle_child_and_parent _ _ _ _ _ _ _ Hpwd Hup Hn Hr Hp Hb Hplan)
      as (Hproj & Hexp & Hbuild & Hroot & Hargs).
    destruct (configure_prefers c Hproj Hexp) as [rest Hrest].
    { rewrite Hbuild. apply nonEmpty_pathString. }
    { rewrite Hroot. apply nonEmpty_pathString. }
    rewrite Hargs, Hbuild, Hroot in Hrest.
    split; [exact Hbuild |]. split; [exact Hroot |].
    unfold Gradle.Execute. cbn [snd]. unfold findFlag in Hrest. split.
    + intros Hno. rewrite (bool_decide_eq_false_2 _ Hno) in Hrest. eauto.
    + intros Hyes. rewrite (bool_decide_eq_true_2 _ Hyes) in Hrest.
      split; [eauto |]. rewrite <- Hroot. apply dump_lists_root.
  - intros c Hn Hr Hf Hplan.
    destruct (FindMaven_child_and_parent _ _ _ _ _ Hpwd Hup Hn Hr Hf Hplan)
      as (Hexp & Hbuild & Hroot & Hargs).
    destruct (maven_execute_prefers c Hexp) as [rest Hrest].
    { rewrite Hbuild. apply nonEmpty_pathString. }
    { rewrite Hroot. apply nonEmpty_pathString. }
    rewrite Hargs, Hbuild, Hroot in Hrest.
    split; [exact Hbuild |]. split; [exact Hroot |].
    unfold findFlag in Hrest. split.
    + intros Hno. rewrite (bool_decide_eq_false_2 _ Hno) in Hrest. eauto.
    + intros Hyes. rewrite (bool_decide_eq_true_2 _ Hyes) in Hrest.
      split; [eauto |]. intros Hgd. rewrite <- Hroot.
      apply maven_dump_lists_root. rewrite Hargs. exact Hgd.
Qed.

Lemma root_preferred_unless_nearest_witness :
  let ctx := testContext "/t/parent-with-wrapper/child" ["/t/bin"] in
  let mctx := mavenContext "/m/parent/child" ["/m/bin"] in
  (exists c rest,
     Gradle.FindGradle ctx ["build"] = Plan c /\
     snd (Gradle.Execute c)
     = "-b" :: "/t/parent-with-wrapper/build.gradle" :: rest) /\
  (exists c rest,
     Gradle.FindGradle ctx ["-gn"; "build"] = Plan c /\
     snd (Gradle.Execute c)
     = "-b" :: "/t/parent-with-wrapper/child/build.gradle" :: rest) /\
  (exists c rest,
     Maven.FindMaven mctx ["-gn"; "-gd"; "install"] = Plan c /\
     Maven.finalArgs (Maven.Execute c) = "-f" :: "/m/parent/child/pom.xml" :: rest /\
     println2 "rootBuildFile      = " "/m/parent/pom.xml"
     ∈ Maven.stdout (Maven.Execute c)).
Proof.
  intros ctx mctx.
  assert (Hpwd : GetWorkingDir ctx = "child" :: Abs [] "/t/parent-with-wrapper")
    by reflexivity.
  assert (Hup : Abs [] "/t/parent-with-wrapper" <> []) by discriminate.
  assert (Hmpwd : GetWorkingDir mctx = "child" :: Abs [] "/m/parent")
    by reflexivity.
  assert (Hmup : Abs [] "/m/parent" <> []) by discriminate.
  split; [| split].
  - resolve_plan (Gradle.FindGradle ctx ["build"]) as c Hplan.
    destruct (root_preferred_unless_nearest ctx ["build"] _ _ Hpwd Hup) as [G _].
    destruct (G (Abs [] "/t/parent-with-wrapper/child/build.gradle")
                (Abs [] "/t/parent-with-wrapper/build.gradle") c
                eq_refl eq_refl eq_refl eq_refl Hplan)
      as (_ & _ & Hroot & _).
    destruct Hroot as [rest Hrest].
    { intros H. apply (bool_decide_pack _) in H. vm_compute in H. exact H. }
    exists c, rest. split; [reflexivity | exact Hrest].
  - resolve_plan (Gradle.FindGradle ctx ["-gn"; "build"]) as c Hplan.
    destruct (root_preferred_unless_nearest ctx ["-gn"; "build"] _ _ Hpwd Hup)
      as [G _].
    destruct (G (Abs [] "/t/parent-with-wrapper/child/build.gradle")
                (Abs [] "/t/parent-with-wrapper/build.gradle") c
                eq_refl eq_refl eq_refl eq_refl Hplan)
      as (_ & _ & _ & Hnear).
    destruct Hnear as [[rest Hrest] _]; [left |].
    exists c, rest. split; [reflexivity | exact Hrest].
  - resolve_plan (Maven.FindMaven mctx ["-gn"; "-gd"; "install"]) as c Hplan.
    destruct (root_preferred_unless_nearest mctx ["-gn"; "-gd"; "install"] _ _
                Hmpwd Hmup) as [_ M].
    destruct (M c eq_refl eq_refl eq_refl Hplan) as (_ & _ & _ & Hnear).
    destruct Hnear as [[rest Hrest] Hdump]; [left |].
    exists c, rest. split; [reflexivity |]. split; [exact Hrest |].
    apply Hdump. right; left.
Defined.

(** C4, the claim as stated fails.  Gradle: the parent's build file is
    named after its directory ([/w/proj/proj.gradle]); the root search
    does not know that name, the root defaults to the nearest file and
    the child's file is passed without [-gn].  Maven: the parent is the
    filesystem root, which no search probes. *)
Lemma root_not_preferred_counterexample :
  (Gradle.findGradleBuildFile conventionalParentContext (Abs [] "/w/proj")
   = Some (Abs [] "/w/proj/proj.gradle") /\
   exists c, Gradle.FindGradle conventionalParentContext ["build"] = Plan c /\
     Gradle.buildFile c = "/w/proj/child/build.gradle" /\
     snd (Gradle.Execute c) = ["-b"; "/w/proj/child/build.gradle"; "build"]) /\
  (FileExists rootPomContext (Abs [] "/pom.xml") = true /\
   FileExists rootPomContext (Abs [] "/c/pom.xml") = true /\
   exists c, Maven.FindMaven rootPomContext ["install"] = Plan c /\
     Maven.finalArgs (Maven.Execute c) = ["-f"; "/c/pom.xml"; "install"]).
Proof.
  split.
  - split; [reflexivity |]. eexists. split; [vm_compute; reflexivity |].
    split; vm_compute; reflexivity.
  - split; [reflexivity |]. split; [reflexivity |].
    eexists. split; vm_compute; reflexivity.
Qed.

(** * Further properties of the resolver *)

(** Case analysis on every search result and on the explicit mode of a
    resolver body; the branches that return no plan are closed. *)
Ltac resolver_cases :=
  repeat match goal with
    | |- context [match ?x with Some _ => _ | None => _ end] =>
        destruct x eqn:?
    | |- context [if IsExplicit ?ctx then _ else _] =>
        destruct (IsExplicit ctx) eqn:?
    end;
  try discriminate.


(** ** The upward walk *)

Section UpwardSearch.

Variable ctx : Context.

Lemma probe_some_iff (d : path) (l : list string) (f : path) :
  probe ctx d l = Some f <->
  exists pre n post,
    l = pre ++ n :: post /\ f = Join d n /\ FileExists ctx f = true /\
    forall m, m ∈ pre -> FileExists ctx (Join d m) = false.
Proof.
  split.
  - induction l as [| n rest IH]; simpl; [discriminate |].
    destruct (FileExists ctx (Join d n)) eqn:Hn.
    + intros [= <-]. exists [], n, rest.
      repeat split; [exact Hn |]. intros m Hm. inversion Hm.
    + intros H. destruct (IH H) as (pre & m & post & -> & -> & He & Hpre).
      exists (n :: pre), m, post. repeat split; [exact He |].
      intros k Hk. apply elem_of_cons in Hk as [-> | Hk]; auto.
  - intros (pre & n & post & -> & -> & He & Hpre).
    induction pre as [| m pre IH]; simpl.
    + rewrite He. reflexivity.
    + rewrite (Hpre m) by left. apply IH.
      intros k Hk. apply Hpre. right. exact Hk.
Qed.

Lemma probe_none_iff (d : path) (l : list string) :
  probe ctx d l = None <->
  forall n, n ∈ l -> FileExists ctx (Join d n) = false.
Proof.
  induction l as [| n rest IH]; simpl.
  - split; [intros _ m Hm; inversion Hm | reflexivity].
  - destruct (FileExists ctx (Join d n)) eqn:Hn.
    + split; [discriminate |]. intros H.
      specialize (H n (list_elem_of_here _ _)). congruence.
    + rewrite IH. split.
      * intros H m Hm. apply elem_of_cons in Hm as [-> | Hm]; auto.
      * intros H m Hm. apply H. right. exact Hm.
Qed.

Variable names : path -> list string.

Lemma upward_some_iff (dir f : path) :
  upward ctx names dir = Some f <-> upwardResult ctx names dir f.
Proof.
  unfold upwardResult, firstExisting, noCandidate. split.
  - induction dir as [| c up IH]; cbn [upward]; [discriminate |].
    destruct (probe ctx (c :: up) (names (c :: up))) as [g |] eqn:Hprobe.
    + intros [= <-]. exists [], (c :: up).
      split; [reflexivity |]. split; [discriminate |].
      split; [apply probe_some_iff; exact Hprobe |]. simpl. lia.
    + intros H. destruct (IH H) as (below & d & -> & Hd & Hf & Hnone).
      exists (c :: below), d.
      split; [reflexivity |]. split; [exact Hd |]. split; [exact Hf |].
      intros [| k] Hk.
      * apply probe_none_iff. exact Hprobe.
      * cbn [drop app]. apply Hnone. simpl in Hk. lia.
  - intros (below & d & -> & Hd & Hf & Hnone).
    apply probe_some_iff in Hf.
    induction below as [| c below IH]; cbn [app].
    + destruct d as [| c up]; [congruence |]. cbn [upward]. rewrite Hf.
      reflexivity.
    + cbn [upward].
      assert (Hhere : probe ctx (c :: below ++ d) (names (c :: below ++ d)) = None).
      { apply probe_none_iff. apply (Hnone 0). simpl. lia. }
      rewrite Hhere. apply IH.
      intros k Hk. apply (Hnone (S k)). simpl. lia.
Qed.

Lemma upward_none_iff (dir : path) :
  upward ctx names dir = None <->
  forall k, k < length dir -> noCandidate ctx names (drop k dir).
Proof.
  unfold noCandidate.
  induction dir as [| c up IH]; cbn [upward].
  - split; [intros _ k Hk; simpl in Hk; lia | reflexivity].
  - destruct (probe ctx (c :: up) (names (c :: up))) as [g |] eqn:Hprobe.
    + split; [discriminate |]. intros H.
      assert (Hnone : probe ctx (c :: up) (names (c :: up)) = None).
      { apply probe_none_iff. apply (H 0). simpl. lia. }
      congruence.
    + rewrite IH. split.
      * intros H [| k] Hk; [apply probe_none_iff; exact Hprobe |].
        cbn [drop]. apply H. simpl in Hk. lia.
      * intros H k Hk. apply (H (S k)). simpl. lia.
Qed.

(** The directory of a search result lies on the chain from the start
    directory upward. *)
Lemma upwardResult_on_chain (dir f : path) :
  upwardResult ctx names dir f ->
  Dir f `suffix_of` dir /\ Dir f <> [] /\ FileExists ctx f = true.
Proof.
  intros (below & d & -> & Hd & (pre & n & post & _ & -> & He & _) & _).
  split; [exists below; reflexivity |]. split; [exact Hd | exact He].
Qed.

End UpwardSearch.

Lemma upwardResult_single (ctx : Context) (n : string) (dir f : path) :
  upwardResult ctx (λ _, [n]) dir f <-> nearestNamed ctx n dir f.
Proof.
  unfold upwardResult, nearestNamed, firstExisting, noCandidate. split.
  - intros (below & d & -> & Hd & (pre & m & post & Hl & -> & He & _) & Hnone).
    assert (m = n) as ->.
    { destruct pre as [| a [| b pre]]; simpl in Hl; congruence. }
    exists below, d. repeat split; auto.
    intros k Hk. apply (Hnone k Hk). left.
  - intros (below & d & -> & Hd & -> & He & Hnone).
    exists below, d. split; [reflexivity |]. split; [exact Hd |]. split.
    + exists [], n, []. repeat split; [exact He |]. intros m Hm. inversion Hm.
    + intros k Hk m Hm. apply list_elem_of_singleton in Hm as ->.
      apply Hnone. exact Hk.
Qed.

Lemma findGradleBuildFile_upward (ctx : Context) (dir : path) :
  Gradle.findGradleBuildFile ctx dir = upward ctx Gradle.buildFiles dir.
Proof.
  induction dir as [| c up IH]; [reflexivity |].
  cbn [Gradle.findGradleBuildFile upward]. rewrite IH. reflexivity.
Qed.

Lemma findGradleSettingsFile_upward (ctx : Context) (dir : path) :
  Gradle.findGradleSettingsFile ctx dir
  = upward ctx (λ _, Gradle.settingsFiles) dir.
Proof.
  induction dir as [| c up IH]; [reflexivity |].
  cbn [Gradle.findGradleSettingsFile upward]. rewrite IH. reflexivity.
Qed.

Lemma findGradleWrapperExec_upward (ctx : Context) (dir : path) :
  Gradle.findGradleWrapperExec ctx dir
  = upward ctx (λ _, [Gradle.resolveGradleWrapperExec ctx]) dir.
Proof.
  induction dir as [| c up IH]; [reflexivity |].
  cbn [Gradle.findGradleWrapperExec upward probe]. rewrite IH.
  destruct (FileExists ctx (Join (c :: up) (Gradle.resolveGradleWrapperExec ctx)));
    reflexivity.
Qed.

Lemma findMavenWrapperExec_upward (ctx : Context) (dir : path) :
  Maven.findMavenWrapperExec ctx dir
  = upward ctx (λ _, [Maven.resolveMavenWrapperExec ctx]) dir.
Proof.
  induction dir as [| c up IH]; [reflexivity |].
  cbn [Maven.findMavenWrapperExec upward probe]. rewrite IH.
  destruct (FileExists ctx (Join (c :: up) (Maven.resolveMavenWrapperExec ctx)));
    reflexivity.
Qed.

Lemma findMavenBuildFile_upward (ctx : Context) (dir : path) :
  Maven.findMavenBuildFile ctx dir = upward ctx (λ _, ["pom.xml"]) dir.
Proof.
  induction dir as [| c up IH]; [reflexivity |].
  cbn [Maven.findMavenBuildFile upward probe]. rewrite IH.
  destruct (FileExists ctx (Join (c :: up) "pom.xml")); reflexivity.
Qed.

(** ** The searches *)

(** X1. The nearest build file search returns the first existing
    candidate, in the order [build.gradle], [build.gradle.kts],
    [<dir>.gradle], [<dir>.gradle.kts], of the nearest directory from the
    start directory upward that has any of them; a nearer directory beats
    a better name, the filesystem root is never probed, and the search
    fails exactly when no directory short of the root has a candidate. *)
Theorem build_search_nearest_first (ctx : Context) (dir : path) :
  (forall f, Gradle.findGradleBuildFile ctx dir = Some f <->
             upwardResult ctx Gradle.buildFiles dir f) /\
  (Gradle.findGradleBuildFile ctx dir = None <->
   forall k, k < length dir -> noCandidate ctx Gradle.buildFiles (drop k dir)).
Proof.
  rewrite findGradleBuildFile_upward. split.
  - intros f. apply upward_some_iff.
  - apply upward_none_iff.
Qed.

(** X2. The settings search returns [settings.gradle], else
    [settings.gradle.kts], of the nearest directory from the start
    directory upward, short of the filesystem root, that has one of them,
    and fails exactly when none has. *)
Theorem settings_search_nearest_first (ctx : Context) (dir : path) :
  (forall f, Gradle.findGradleSettingsFile ctx dir = Some f <->
             upwardResult ctx (λ _, Gradle.settingsFiles) dir f) /\
  (Gradle.findGradleSettingsFile ctx dir = None <->
   forall k, k < length dir ->
     noCandidate ctx (λ _, Gradle.settingsFiles) (drop k dir)).
Proof.
  rewrite findGradleSettingsFile_upward. split.
  - intros f. apply upward_some_iff.
  - apply upward_none_iff.
Qed.

(** X3. The wrapper searches return the wrapper script ([gradlew] /
    [mvnw], with [.bat] on Windows) of the nearest directory from the
    start directory upward that holds it; a wrapper in the filesystem
    root is never found. *)
Theorem wrapper_search_nearest (ctx : Context) (dir w : path) :
  (Gradle.findGradleWrapperExec ctx dir = Some w <->
   nearestNamed ctx (if IsWindows ctx then "gradlew.bat" else "gradlew") dir w) /\
  (Maven.findMavenWrapperExec ctx dir = Some w <->
   nearestNamed ctx (if IsWindows ctx then "mvnw.bat" else "mvnw") dir w) /\
  Gradle.findGradleWrapperExec ctx [] = None /\
  Maven.findMavenWrapperExec ctx [] = None.
Proof.
  rewrite findGradleWrapperExec_upward, findMavenWrapperExec_upward.
  rewrite !upward_some_iff, !upwardResult_single.
  repeat split; tauto.
Qed.

(** X4. [findMavenBuildFile] and [findMavenRootFile] are the same search:
    both return the [pom.xml] of the nearest directory from the start
    directory upward, short of the filesystem root, that holds one. *)
Theorem pom_search_nearest (ctx : Context) (dir f : path) :
  (Maven.findMavenBuildFile ctx dir = Some f <->
   nearestNamed ctx "pom.xml" dir f) /\
  Maven.findMavenRootFile ctx dir = Maven.findMavenBuildFile ctx dir.
Proof.
  split; [| apply maven_root_is_build].
  rewrite findMavenBuildFile_upward, upward_some_iff.
  apply upwardResult_single.
Qed.

Lemma findInPaths_iff (ctx : Context) (exe : string) (paths : list path)
    (p : path) :
  Gradle.findInPaths ctx exe paths = Some p <-> firstInPaths ctx exe paths p.
Proof.
  unfold firstInPaths. split.
  - induction paths as [| d rest IH]; simpl; [discriminate |].
    destruct (FileExists ctx (Join d exe)) eqn:Hd.
    + intros [= <-]. exists [], d, rest.
      repeat split; [exact Hd |]. intros e He. inversion He.
    + intros H. destruct (IH H) as (pre & e & post & -> & -> & He & Hpre).
      exists (d :: pre), e, post. repeat split; [exact He |].
      intros k Hk. apply elem_of_cons in Hk as [-> | Hk]; auto.
  - intros (pre & d & post & -> & -> & He & Hpre).
    induction pre as [| e pre IH]; simpl.
    + rewrite He. reflexivity.
    + rewrite (Hpre e) by left. apply IH.
      intros k Hk. apply Hpre. right. exact Hk.
Qed.

Lemma findInPaths_none (ctx : Context) (exe : string) (paths : list path) :
  Gradle.findInPaths ctx exe paths = None <->
  forall d, d ∈ paths -> FileExists ctx (Join d exe) = false.
Proof.
  induction paths as [| d rest IH]; simpl.
  - split; [intros _ e He; inversion He | reflexivity].
  - destruct (FileExists ctx (Join d exe)) eqn:Hd.
    + split; [discriminate |]. intros H.
      specialize (H d (list_elem_of_here _ _)). congruence.
    + rewrite IH. split.
      * intros H e He. apply elem_of_cons in He as [-> | He]; auto.
      * intros H e He. apply H. right. exact He.
Qed.

(** X5. The system executable searches return the executable ([gradle] /
    [mvn], with [.bat] on Windows) of the first PATH entry that holds it,
    so an earlier entry shadows a later one; they fail exactly when no
    entry holds it, in particular on an empty PATH. *)
Theorem path_search_first_entry (ctx : Context) (p : path) :
  (Gradle.findGradleExec ctx = Some p <->
   firstInPaths ctx (if IsWindows ctx then "gradle.bat" else "gradle")
     (GetPaths ctx) p) /\
  (Gradle.findGradleExec ctx = None <->
   forall d, d ∈ GetPaths ctx ->
     FileExists ctx (Join d (if IsWindows ctx then "gradle.bat" else "gradle"))
     = false) /\
  (Maven.findMavenExec ctx = Some p <->
   firstInPaths ctx (if IsWindows ctx then "mvn.bat" else "mvn")
     (GetPaths ctx) p) /\
  (Maven.findMavenExec ctx = None <->
   forall d, d ∈ GetPaths ctx ->
     FileExists ctx (Join d (if IsWindows ctx then "mvn.bat" else "mvn"))
     = false) /\
  (GetPaths ctx = [] ->
   Gradle.findGradleExec ctx = None /\ Maven.findMavenExec ctx = None).
Proof.
  unfold Gradle.findGradleExec, Maven.findMavenExec.
  split; [apply findInPaths_iff |]. split; [apply findInPaths_none |].
  split; [apply findInPaths_iff |]. split; [apply findInPaths_none |].
  intros ->. split; reflexivity.
Qed.

Lemma path_search_first_entry_witness :
  let ctx := testContext "/t/single-without-wrapper" [] in
  GetPaths ctx = [] /\
  Gradle.findGradleExec ctx = None /\ Maven.findMavenExec ctx = None.
Proof.
  intros ctx. split; [reflexivity |].
  destruct (path_search_first_entry ctx []) as (_ & _ & _ & _ & Hempty).
  apply Hempty. reflexivity.
Defined.

(** ** Choosing the executable *)

(** X6. Every plan has a non-empty executable and carries the arguments
    untouched; the executable is the wrapper when the wrapper search
    succeeded, whatever the PATH holds, and the system executable
    otherwise.  This holds for the gradle and the maven resolver. *)
Theorem wrapper_preferred_over_system (ctx : Context) (args : list string) :
  (forall c, Gradle.FindGradle ctx args = Plan c ->
     nonEmpty (Gradle.executable c) = true /\ Gradle.args c = args /\
     match Gradle.resolveGradleWrapperExecutable ctx args with
     | Some w => Gradle.executable c = pathString w
     | None => exists g, Gradle.findGradleExec ctx = Some g /\
                         Gradle.executable c = pathString g
     end) /\
  (forall c, Maven.FindMaven ctx args = Plan c ->
     nonEmpty (Maven.executable c) = true /\ Maven.args c = args /\
     match Maven.findMavenWrapperExec ctx (GetWorkingDir ctx) with
     | Some w => Maven.executable c = pathString w
     | None => exists m, Maven.findMavenExec ctx = Some m /\
                         Maven.executable c = pathString m
     end).
Proof.
  split.
  - intros c. unfold Gradle.FindGradle. cbv zeta. resolver_cases.
    all: intros [= <-]; cbn [Gradle.executable Gradle.args Gradle.command].
    all: split; [apply nonEmpty_pathString |]; split; [reflexivity |].
    all: try congruence.
    all: match goal with
         | H : match ?e with Some _ => _ | None => _ end = Some _ |- _ =>
             destruct e eqn:?; [injection H as <-; eauto | discriminate]
         end.
  - intros c. unfold Maven.FindMaven. cbv zeta. resolver_cases.
    all: intros [= <-]; cbn [Maven.executable Maven.args Maven.command].
    all: split; [apply nonEmpty_pathString |]; split; [reflexivity |].
    all: try congruence.
    all: match goal with
         | H : match ?e with Some _ => _ | None => _ end = Some _ |- _ =>
             destruct e eqn:?; [injection H as <-; eauto | discriminate]
         end.
Qed.

Lemma wrapper_preferred_over_system_witness :
  let ctx := testContext "/t/parent-with-wrapper/child" ["/t/bin"] in
  exists c, Gradle.FindGradle ctx ["build"] = Plan c /\
    Gradle.findGradleExec ctx = Some (Abs [] "/t/bin/gradle") /\
    Gradle.executable c = "/t/parent-with-wrapper/gradlew" /\
    Gradle.args c = ["build"].
Proof.
  intros ctx. resolve_plan (Gradle.FindGradle ctx ["build"]) as c Hplan.
  exists c. destruct (wrapper_preferred_over_system ctx ["build"]) as [G _].
  destruct (G c Hplan) as (_ & Hargs & Hexe).
  split; [reflexivity |]. split; [reflexivity |]. split; [exact Hexe | exact Hargs].
Defined.

(** ** When a plan is returned *)

(** X7. The gradle resolver returns a plan exactly when an executable is
    found (wrapper or system) and the project is identified by any of: an
    explicit project directory, an explicit build file, a discovered build
    file, an explicit settings file, a discovered settings file.  In every
    other case it calls [Exit(-1)] in explicit mode and returns [nil]
    otherwise; an explicit settings file is accepted without a check that
    it exists. *)
Theorem gradle_plan_iff (ctx : Context) (args : list string) :
  let pwd := GetWorkingDir ctx in
  let executable :=
    Gradle.resolveGradleWrapperExecutable ctx args <> None \/
    Gradle.findGradleExec ctx <> None in
  let project :=
    Gradle.findExplicitProjectDir ctx args <> None \/
    Gradle.findExplicitGradleBuildFile ctx args <> None \/
    Gradle.findGradleBuildFile ctx pwd <> None \/
    Gradle.findExplicitGradleSettingsFile ctx args <> None \/
    Gradle.findGradleSettingsFile ctx pwd <> None in
  ((exists c, Gradle.FindGradle ctx args = Plan c) <-> executable /\ project) /\
  (~ (executable /\ project) ->
   Gradle.FindGradle ctx args = if IsExplicit ctx then Exit (-1) else Nil).
Proof.
  unfold Gradle.FindGradle. cbv zeta.
  destruct (Gradle.resolveGradleWrapperExecutable ctx args) as [w |];
    destruct (Gradle.findGradleExec ctx) as [g |];
    destruct (Gradle.findExplicitProjectDir ctx args) as [d |];
    destruct (Gradle.findExplicitGradleBuildFile ctx args) as [b |];
    destruct (Gradle.findGradleBuildFile ctx (GetWorkingDir ctx)) as [n |];
    destruct (Gradle.findExplicitGradleSettingsFile ctx args) as [s |];
    destruct (Gradle.findGradleSettingsFile ctx (GetWorkingDir ctx)) as [t |];
    destruct (IsExplicit ctx);
    (split; [split; [intros [c Hc]; try discriminate; split; auto 10
                    | intros [He Hp]; try (eexists; reflexivity);
                      exfalso; intuition congruence]
            | intros Hno; try reflexivity; exfalso; apply Hno; split; auto 10]).
Qed.

(** X8. The maven resolver returns a plan exactly when an executable is
    found and either an explicit build file is given or a [pom.xml] is
    discovered from the working directory upward; otherwise it calls
    [Exit(-1)] in explicit mode and returns [nil] otherwise. *)
Theorem maven_plan_iff (ctx : Context) (args : list string) :
  let pwd := GetWorkingDir ctx in
  let executable :=
    Maven.findMavenWrapperExec ctx pwd <> None \/
    Maven.findMavenExec ctx <> None in
  let project :=
    Maven.findExplicitMavenBuildFile ctx args <> None \/
    Maven.findMavenBuildFile ctx pwd <> None in
  ((exists c, Maven.FindMaven ctx args = Plan c) <-> executable /\ project) /\
  (~ (executable /\ project) ->
   Maven.FindMaven ctx args = if IsExplicit ctx then Exit (-1) else Nil).
Proof.
  unfold Maven.FindMaven. cbv zeta.
  destruct (Maven.findMavenWrapperExec ctx (GetWorkingDir ctx)) as [w |];
    destruct (Maven.findMavenExec ctx) as [g |];
    destruct (Maven.findExplicitMavenBuildFile ctx args) as [b |];
    destruct (Maven.findMavenBuildFile ctx (GetWorkingDir ctx)) as [n |];
    destruct (IsExplicit ctx);
    (split; [split; [intros [c Hc]; try discriminate; split; auto 10
                    | intros [He Hp]; try (eexists; reflexivity);
                      exfalso; intuition congruence]
            | intros Hno; try reflexivity; exfalso; apply Hno; split; auto 10]).
Qed.

Lemma gradle_plan_iff_witness :
  let ctx := testContext "/t/bin" ["/t/bin"] in
  Gradle.findGradleExec ctx <> None /\
  Gradle.FindGradle ctx ["build"] = Exit (-1).
Proof.
  intros ctx. split; [discriminate |].
  destruct (gradle_plan_iff ctx ["build"]) as [_ Hno].
  apply Hno. intros [_ [H | [H | [H | [H | H]]]]]; apply H; reflexivity.
Defined.

Lemma maven_plan_iff_witness :
  let ctx := mavenContext "/m/bin" ["/m/bin"] in
  Maven.findMavenExec ctx <> None /\
  Maven.FindMaven ctx ["install"] = Exit (-1).
Proof.
  intros ctx. split; [discriminate |].
  destruct (maven_plan_iff ctx ["install"]) as [_ Hno].
  apply Hno. intros [_ [H | H]]; apply H; reflexivity.
Defined.

(** ** Meta-flags and what is printed *)

Lemma flag_survives_other_grab (flag other : string) (l : list string) :
  flag <> other ->
  bool_decide (flag ∈ filter (λ s, s ≠ other) l) = bool_decide (flag ∈ l).
Proof.
  intros Hne. apply bool_decide_ext. rewrite list_elem_of_filter. tauto.
Qed.

Lemma configure_finalConfig (c : Gradle.GradleCommand) :
  Gradle.finalConfig (Gradle.doConfigureGradle c)
  = configAfterFlags (Gradle.config c) (Gradle.args c).
Proof.
  unfold Gradle.doConfigureGradle, GrabFlag, findFlag.
  cbn [Gradle.finalConfig]. unfold configAfterFlags.
  rewrite (flag_survives_other_grab "-gr" "-gd") by discriminate.
  rewrite !(flag_survives_other_grab _ "-gn") by discriminate.
  destruct (Gradle.config c) as [q d r m].
  destruct (bool_decide ("-gd" ∈ Gradle.args c)),
           (bool_decide ("-gr" ∈ Gradle.args c));
    cbn; rewrite ?orb_true_r, ?orb_false_r, ?andb_true_r, ?andb_false_r;
    reflexivity.
Qed.

(** X9. [doConfigureGradle] works with the plan's configuration changed
    by the meta-flags only: [-gd] switches the diagnostic dump on, [-gr]
    switches rewriting off (it never switches it on), quiet and the
    mapping table are untouched.  With [-gr] the rewriter returns its
    input whatever the configuration says. *)
Theorem meta_flags_set_config (c : Gradle.GradleCommand) :
  Gradle.finalConfig (Gradle.doConfigureGradle c)
  = configAfterFlags (Gradle.config c) (Gradle.args c) /\
  ("-gr" ∈ Gradle.args c ->
   Gradle.rargs (Gradle.doConfigureGradle c)
   = Gradle.oargs (Gradle.doConfigureGradle c)) /\
  ("-gr" ∉ Gradle.args c -> gradle_replace (Gradle.config c) = true ->
   Gradle.rargs (Gradle.doConfigureGradle c)
   = replaceArgs (Gradle.oargs (Gradle.doConfigureGradle c))
       (gradle_mappings (Gradle.config c)) true).
Proof.
  split; [apply configure_finalConfig |].
  split; intros Hgr; rewrite configure_rargs, configure_finalConfig;
    unfold Gradle.replaceGradleTasks, configAfterFlags;
    cbn [gradle_replace gradle_mappings].
  - rewrite (bool_decide_eq_true_2 _ Hgr), andb_false_r. reflexivity.
  - intros ->. rewrite (bool_decide_eq_false_2 _ Hgr). reflexivity.
Qed.

Lemma meta_flags_set_config_witness :
  let c := Gradle.command aliasConfig "/bin/gradle" ["-gr"; "b"]
             "" "" "" "" "" "" in
  "-gr" ∈ Gradle.args c /\
  gradle_replace (Gradle.config c) = true /\
  Gradle.rargs (Gradle.doConfigureGradle c) = ["b"].
Proof.
  intros c. split; [left |]. split; [reflexivity |].
  destruct (meta_flags_set_config c) as (_ & Hoff & _).
  rewrite Hoff by left. reflexivity.
Defined.

Lemma FindGradle_config (ctx : Context) (args : list string)
    (c : Gradle.GradleCommand) :
  Gradle.FindGradle ctx args = Plan c ->
  exists rootdir,
    Gradle.config c = setQuiet (IsQuiet ctx) (ReadConfig ctx rootdir).
Proof.
  unfold Gradle.FindGradle. cbv zeta. resolver_cases.
  all: intros [= <-]; eexists; reflexivity.
Qed.

(** X10. A plan resolved in a quiet context prints nothing when it is
    executed, unless the diagnostic dump is on: without [-gd] and with a
    configuration that has debug off, [doConfigureGradle] prints neither
    the banner nor the dump, whatever the configuration file says about
    quiet. *)
Theorem quiet_plan_prints_nothing (ctx : Context) (args : list string)
    (c : Gradle.GradleCommand) :
  Gradle.FindGradle ctx args = Plan c ->
  IsQuiet ctx = true ->
  (forall rootdir, general_debug (ReadConfig ctx rootdir) = false) ->
  "-gd" ∉ args ->
  Gradle.stdout (Gradle.doConfigureGradle c) = [].
Proof.
  intros Hplan Hquiet Hdebug Hgd.
  destruct (FindGradle_config _ _ _ Hplan) as [rootdir Hcfg].
  assert (Hargs : Gradle.args c = args).
  { revert Hplan. unfold Gradle.FindGradle. cbv zeta. resolver_cases.
    all: intros [= <-]; reflexivity. }
  change (Gradle.stdout (Gradle.doConfigureGradle c)) with
    (Gradle.debugGradle c (Gradle.finalConfig (Gradle.doConfigureGradle c))
       (Gradle.nearest (Gradle.doConfigureGradle c))
       (Gradle.oargs (Gradle.doConfigureGradle c))
       (Gradle.rargs (Gradle.doConfigureGradle c))
       (Gradle.finalArgs (Gradle.doConfigureGradle c))
     ++ (if negb (general_quiet (Gradle.finalConfig (Gradle.doConfigureGradle c)))
         then [joinWith " " (Gradle.banner (Gradle.doConfigureGradle c))]
         else [])).
  unfold Gradle.debugGradle. rewrite configure_finalConfig, Hcfg, Hargs.
  unfold configAfterFlags, setQuiet.
  cbn [general_debug general_quiet].
  rewrite Hdebug, Hquiet, (bool_decide_eq_false_2 _ Hgd). reflexivity.
Qed.

Lemma quiet_plan_prints_nothing_witness :
  let ctx := testContext "/t/single-with-wrapper" ["/t/bin"] in
  exists c, Gradle.FindGradle ctx ["build"] = Plan c /\
            Gradle.stdout (Gradle.doConfigureGradle c) = [].
Proof.
  intros ctx. resolve_plan (Gradle.FindGradle ctx ["build"]) as c Hplan.
  exists c. split; [reflexivity |].
  apply (quiet_plan_prints_nothing ctx ["build"] c Hplan);
    [reflexivity | reflexivity |].
  intros H. apply (bool_decide_pack _) in H. vm_compute in H. exact H.
Defined.

(** ** Banner and flags *)

(** X11. The banner names the file that is passed: whenever
    [doConfigureGradle] puts [-b f] in front (maven: [-f f]), the banner
    has the clause [to run buildFile 'f':], and the banner always starts
    with the executable in use. *)
Theorem banner_names_passed_file (f : string) (rest : list string) (n : bool) :
  (forall c : Gradle.GradleCommand,
     fst (Gradle.toolSelection c n) = "-b" :: f :: rest ->
     ("to run buildFile '" +:+ f +:+ "':") ∈ snd (Gradle.toolSelection c n) /\
     Gradle.banner (Gradle.doConfigureGradle c)
     = ("Using gradle at '" +:+ Gradle.executable c +:+ "'")
       :: snd (Gradle.toolSelection c
                 (Gradle.nearest (Gradle.doConfigureGradle c)))) /\
  (forall c : Maven.MavenCommand,
     fst (Maven.toolSelection c n) = "-f" :: f :: rest ->
     ("to run buildFile '" +:+ f +:+ "':") ∈ snd (Maven.toolSelection c n)).
Proof.
  split.
  - intros c H. split; [| reflexivity]. revert H.
    unfold Gradle.toolSelection, Gradle.buildFileChoice, Gradle.settingsChoice.
    destruct (nonEmpty (Gradle.explicitProjectDir c)); [discriminate |].
    destruct (nonEmpty (Gradle.explicitBuildFile c)).
    { destruct (nonEmpty (Gradle.explicitSettingsFile c)); [discriminate |].
      destruct (nonEmpty (Gradle.settingsFile c)); discriminate. }
    destruct (n && nonEmpty (Gradle.buildFile c)).
    { destruct (nonEmpty (Gradle.explicitSettingsFile c));
        [| destruct (nonEmpty (Gradle.settingsFile c))];
        cbn; intros [= <- <-]; left. }
    destruct (nonEmpty (Gradle.rootBuildFile c)).
    { destruct (nonEmpty (Gradle.explicitSettingsFile c));
        [| destruct (nonEmpty (Gradle.settingsFile c))];
        cbn; intros [= <- <-]; left. }
    destruct (nonEmpty (Gradle.explicitSettingsFile c)); [discriminate |].
    destruct (nonEmpty (Gradle.settingsFile c)); discriminate.
  - intros c. unfold Maven.toolSelection.
    destruct (nonEmpty (Maven.explicitBuildFile c)); [discriminate |].
    destruct (n && nonEmpty (Maven.buildFile c));
      [cbn; intros [= <- <-]; left |].
    destruct (nonEmpty (Maven.rootBuildFile c)); [| discriminate].
    cbn; intros [= <- <-]; left.
Qed.

Lemma banner_names_passed_file_witness :
  let c := Gradle.command plainConfig "/p/gradlew" ["build"]
             "" "/p/child/build.gradle" "" "/p/build.gradle" "" "" in
  fst (Gradle.toolSelection c false) = ["-b"; "/p/build.gradle"] /\
  "to run buildFile '/p/build.gradle':" ∈ snd (Gradle.toolSelection c false).
Proof.
  intros c. split; [reflexivity |].
  destruct (banner_names_passed_file "/p/build.gradle" [] false) as [G _].
  destruct (G c eq_refl) as [Hin _]. exact Hin.
Defined.

(** ** An explicit build file at execution *)

(** X12. For a plan resolved from an explicit build file, [Execute] adds
    no build-file flag of its own: the gradle vector is the rewritten
    user arguments, preceded by [-c settingsFile] only when no explicit
    settings file was given and one was discovered; the maven vector is
    the user's arguments without the meta-flags.  The explicit file
    reaches the tool through the user's own flag. *)
Theorem explicit_build_file_execute (ctx : Context) (args : list string) :
  (forall b c,
     Gradle.findExplicitProjectDir ctx args = None ->
     Gradle.findExplicitGradleBuildFile ctx args = Some b ->
     Gradle.FindGradle ctx args = Plan c ->
     Gradle.finalArgs (Gradle.doConfigureGradle c)
     = match Gradle.findExplicitGradleSettingsFile ctx args,
             Gradle.findGradleSettingsFile ctx (GetWorkingDir ctx) with
       | None, Some s => ["-c"; pathString s]
       | _, _ => []
       end ++ Gradle.rargs (Gradle.doConfigureGradle c)) /\
  (forall b c,
     Maven.findExplicitMavenBuildFile ctx args = Some b ->
     Maven.FindMaven ctx args = Plan c ->
     Maven.finalArgs (Maven.Execute c)
     = filter (λ s, s ≠ "-gd" /\ s ≠ "-gn") args).
Proof.
  split.
  - intros b c Hp Hb. unfold Gradle.FindGradle. rewrite Hp, Hb. cbv zeta.
    resolver_cases.
    all: intros [= <-]; rewrite configure_finalArgs.
    all: unfold Gradle.toolSelection, Gradle.buildFileChoice,
           Gradle.settingsChoice, Gradle.command;
         cbn [Gradle.explicitProjectDir Gradle.explicitBuildFile
              Gradle.explicitSettingsFile Gradle.settingsFile str];
         rewrite ?nonEmpty_pathString; reflexivity.
  - intros b c Hf. unfold Maven.FindMaven. rewrite Hf. cbv zeta.
    resolver_cases.
    all: intros [= <-]; unfold Maven.Execute, GrabFlag, Maven.toolSelection,
           Maven.command;
         cbn [Maven.finalArgs Maven.explicitBuildFile Maven.args];
         rewrite nonEmpty_pathString; cbn [fst app];
         apply filter_filter_and.
Qed.

Lemma explicit_build_file_execute_witness :
  let ctx := testContext "/t/parent-with-explicit/child" ["/t/bin"] in
  let args := ["-b"; "explicit.gradle"; "build"] in
  exists c, Gradle.FindGradle ctx args = Plan c /\
    Gradle.finalArgs (Gradle.doConfigureGradle c)
    = ["-c"; "/t/parent-with-explicit/settings.gradle";
       "-b"; "explicit.gradle"; "build"].
Proof.
  intros ctx args. resolve_plan (Gradle.FindGradle ctx args) as c Hplan.
  exists c. split; [reflexivity |].
  destruct (explicit_build_file_execute ctx args) as [G _].
  rewrite (G _ c eq_refl eq_refl Hplan).
  vm_compute in Hplan. injection Hplan as <-. reflexivity.
Defined.

(** ** Where the configuration is read *)

Lemma root_search_exists (ctx : Context) (sf : option path) (dir r : path) :
  Gradle.findGradleRootFile ctx dir sf = Some r ->
  FileExists ctx r = true /\ Dir r `suffix_of` dir.
Proof.
  intros H. destruct (root_search_sound _ _ _ _ H)
    as (below & d & -> & _ & Hprobe & _).
  destruct (probe_some _ _ _ _ Hprobe) as (n & _ & -> & He).
  split; [exact He | exists below; reflexivity].
Qed.

(** X13. Every plan's configuration is the one read at the resolved root
    directory with quiet replaced by the context's: the explicit project
    directory when it exists; else the directory of the explicit build
    file when that exists; and, without explicit project directory or
    build file, the directory of the file the root search found. *)
Theorem config_read_at_root_dir (ctx : Context) (args : list string)
    (c : Gradle.GradleCommand) :
  Gradle.FindGradle ctx args = Plan c ->
  general_quiet (Gradle.config c) = IsQuiet ctx /\
  (forall d, Gradle.findExplicitProjectDir ctx args = Some d ->
     FileExists ctx d = true ->
     Gradle.config c
     = setQuiet (IsQuiet ctx) (ReadConfig ctx (pathString d))) /\
  (forall b, Gradle.findExplicitProjectDir ctx args = None ->
     Gradle.findExplicitGradleBuildFile ctx args = Some b ->
     FileExists ctx b = true ->
     Gradle.config c
     = setQuiet (IsQuiet ctx) (ReadConfig ctx (pathString (Dir b)))) /\
  (forall r, Gradle.findExplicitProjectDir ctx args = None ->
     Gradle.findExplicitGradleBuildFile ctx args = None ->
     Gradle.findGradleRootFile ctx (parentOf (GetWorkingDir ctx))
       (Gradle.findGradleSettingsFile ctx (GetWorkingDir ctx)) = Some r ->
     Gradle.config c
     = setQuiet (IsQuiet ctx) (ReadConfig ctx (pathString (Dir r)))).
Proof.
  intros Hplan. split; [| split; [| split]].
  - destruct (FindGradle_config _ _ _ Hplan) as [rootdir ->]. reflexivity.
  - intros d Hp He. revert Hplan. unfold Gradle.FindGradle. rewrite Hp.
    cbv zeta. unfold Gradle.resolveGradleRootDir, fileExistsStr. rewrite He.
    resolver_cases. all: intros [= <-]; reflexivity.
  - intros b Hp Hb He. revert Hplan. unfold Gradle.FindGradle. rewrite Hp, Hb.
    cbv zeta. unfold Gradle.resolveGradleRootDir, fileExistsStr. rewrite He.
    resolver_cases. all: intros [= <-]; reflexivity.
  - intros r Hp Hb Hr. revert Hplan. unfold Gradle.FindGradle.
    rewrite Hp, Hb. cbv zeta. rewrite Hr.
    unfold Gradle.resolveGradleRootDir, fileExistsStr.
    destruct (root_search_exists _ _ _ _ Hr) as [He _]. rewrite He.
    resolver_cases. all: intros [= <-]; reflexivity.
Qed.

Lemma config_read_at_root_dir_witness :
  exists c, Gradle.FindGradle configuredContext ["build"] = Plan c /\
    Gradle.findGradleRootFile configuredContext
      (parentOf (GetWorkingDir configuredContext))
      (Gradle.findGradleSettingsFile configuredContext
         (GetWorkingDir configuredContext))
    = Some (Abs [] "/t/parent-with-wrapper/build.gradle") /\
    Gradle.config c = setQuiet true aliasConfig.
Proof.
  resolve_plan (Gradle.FindGradle configuredContext ["build"]) as c Hplan.
  exists c. split; [reflexivity |]. split; [reflexivity |].
  destruct (config_read_at_root_dir configuredContext ["build"] c Hplan)
    as (_ & _ & _ & Hroot).
  exact (Hroot _ eq_refl eq_refl eq_refl).
Defined.

(** ** Where the discovered files lie *)

Lemma build_search_exists (ctx : Context) (dir b : path) :
  Gradle.findGradleBuildFile ctx dir = Some b ->
  FileExists ctx b = true /\ Dir b `suffix_of` dir.
Proof.
  rewrite findGradleBuildFile_upward, upward_some_iff.
  intros H. destruct (upwardResult_on_chain _ _ _ _ H) as (Hs & _ & He).
  split; assumption.
Qed.

Lemma probe_dir (ctx : Context) (dir : path) (names : list string) (f : path) :
  probe ctx dir names = Some f -> Dir f = dir.
Proof.
  intros H. destruct (probe_some _ _ _ _ H) as (n & _ & -> & _). reflexivity.
Qed.

Lemma root_at_or_above_build (ctx : Context) (sf : option path)
    (dir r b : path) :
  Gradle.findGradleRootFile ctx dir sf = Some r ->
  Gradle.findGradleBuildFile ctx dir = Some b ->
  Dir r `suffix_of` Dir b.
Proof.
  induction dir as [| c up IH];
    cbn [Gradle.findGradleRootFile Gradle.findGradleBuildFile];
    [discriminate |].
  destruct (probe ctx (c :: up) (Gradle.buildFiles (c :: up))) as [g |] eqn:Hbuild.
  - intros Hr [= <-]. rewrite (probe_dir _ _ _ _ Hbuild).
    apply (root_search_exists ctx sf (c :: up) r).
    cbn [Gradle.findGradleRootFile]. exact Hr.
  - destruct (probe ctx (c :: up) Gradle.rootBuildFiles) as [g |] eqn:Hroot.
    { rewrite (probe_root_is_build_probe _ _ _ Hroot) in Hbuild. discriminate. }
    destruct (Gradle.boundary up sf); [discriminate | exact IH].
Qed.

Lemma root_from_parent_above_build (ctx : Context) (sf : option path)
    (pwd r b : path) :
  Gradle.findGradleRootFile ctx (parentOf pwd) sf = Some r ->
  Gradle.findGradleBuildFile ctx pwd = Some b ->
  Dir r `suffix_of` Dir b.
Proof.
  destruct pwd as [| c up]; unfold parentOf; cbn [tail];
    [discriminate |].
  intros Hr. cbn [Gradle.findGradleBuildFile].
  destruct (probe ctx (c :: up) (Gradle.buildFiles (c :: up))) as [g |] eqn:Hbuild.
  - intros [= <-]. rewrite (probe_dir _ _ _ _ Hbuild).
    apply suffix_cons_r. apply (root_search_exists _ _ _ _ Hr).
  - apply root_at_or_above_build with (sf := sf). exact Hr.
Qed.

(** X14. Without explicit project directory and build file, the build
    files of a plan exist and lie on the chain from the working directory
    upward: the nearest build file is in the working directory or an
    ancestor, and the root build file is in the directory of the nearest
    build file or in an ancestor of it, never below it. *)
Theorem discovered_files_on_chain (ctx : Context) (args : list string)
    (c : Gradle.GradleCommand) :
  Gradle.findExplicitProjectDir ctx args = None ->
  Gradle.findExplicitGradleBuildFile ctx args = None ->
  Gradle.FindGradle ctx args = Plan c ->
  nonEmpty (Gradle.buildFile c) = true ->
  exists b r,
    Gradle.buildFile c = pathString b /\
    Gradle.rootBuildFile c = pathString r /\
    FileExists ctx b = true /\ FileExists ctx r = true /\
    Dir b `suffix_of` GetWorkingDir ctx /\
    Dir r `suffix_of` Dir b.
Proof.
  intros Hp Hb. unfold Gradle.FindGradle. rewrite Hp, Hb. cbv zeta.
  set (pwd := GetWorkingDir ctx).
  set (sf := Gradle.findGradleSettingsFile ctx pwd).
  destruct (Gradle.findGradleBuildFile ctx pwd) as [b |] eqn:Hbuild.
  - destruct (build_search_exists _ _ _ Hbuild) as [Heb Hsb].
    destruct (Gradle.findGradleRootFile ctx (parentOf pwd) sf) as [r |] eqn:Hroot.
    + destruct (root_search_exists _ _ _ _ Hroot) as [Her _].
      pose proof (root_from_parent_above_build _ _ _ _ _ Hroot Hbuild) as Hrb.
      resolver_cases. all: intros [= <-] _; exists b, r; auto 10.
    + resolver_cases. all: intros [= <-] _; exists b, b; auto 10.
  - resolver_cases. all: intros [= <-]; discriminate.
Qed.

Lemma discovered_files_on_chain_witness :
  let ctx := testContext "/t/parent-with-wrapper/child" ["/t/bin"] in
  exists c b r,
    Gradle.FindGradle ctx ["build"] = Plan c /\
    Gradle.buildFile c = pathString b /\
    Gradle.rootBuildFile c = pathString r /\
    Dir r `suffix_of` Dir b.
Proof.
  intros ctx. resolve_plan (Gradle.FindGradle ctx ["build"]) as c Hplan.
  destruct (discovered_files_on_chain ctx ["build"] c eq_refl eq_refl Hplan)
    as (b & r & Hb & Hr & _ & _ & _ & Hsuffix).
  { vm_compute in Hplan. injection Hplan as <-. reflexivity. }
  exists c, b, r. split; [reflexivity |]. auto.
Defined.

(** ** The earlier root search *)

Lemma legacy_root_found_build_found (env : Context) (dir f : path) :
  GradleLegacy.findGradleRootFile env dir = Some f ->
  GradleLegacy.findGradleBuildFile env dir <> None.
Proof.
  destruct dir as [| c up]; unfold GradleLegacy.findGradleRootFile;
    [discriminate |].
  destruct (GradleLegacy.probeNotInParent env (c :: up) up Gradle.rootBuildFiles)
    as [g |] eqn:Hprobe.
  - intros _. destruct (probeNotInParent_some _ _ _ _ _ Hprobe)
      as (n & Hn & -> & He & _).
    unfold GradleLegacy.findGradleBuildFile.
    cbn [Gradle.findGradleBuildFile].
    destruct (probe env (c :: up) (Gradle.buildFiles (c :: up))) eqn:Hbuild;
      [discriminate |].
    exfalso. rewrite (probe_none_iff env) in Hbuild.
    assert (Hin : n ∈ Gradle.buildFiles (c :: up)).
    { unfold Gradle.rootBuildFiles in Hn. unfold Gradle.buildFiles.
      apply elem_of_cons in Hn as [-> | Hn]; [left |].
      apply list_elem_of_singleton in Hn as ->. right; left. }
    rewrite (Hbuild n Hin) in He. discriminate.
  - intros H. apply (build_found_from_parent env (c :: up)).
    unfold parentOf; cbn [tail]. unfold GradleLegacy.findGradleBuildFile in H.
    congruence.
Qed.

(** X15. In the earlier resolver a plan with a root build file always has
    a nearest build file: the earlier root search only succeeds where the
    nearest search from the same directory succeeds. *)
Theorem legacy_root_needs_nearest (env : Context) (quiet explicit : bool)
    (args : list string) (c : GradleLegacy.GradleCommand) :
  GradleLegacy.FindGradle env quiet explicit args = Plan c ->
  nonEmpty (GradleLegacy.rootBuildFile c) = true ->
  nonEmpty (GradleLegacy.buildFile c) = true.
Proof.
  unfold GradleLegacy.FindGradle. cbv zeta.
  set (pwd := GetWorkingDir env).
  destruct (GradleLegacy.findGradleRootFile env pwd) as [r |] eqn:Hroot.
  - pose proof (legacy_root_found_build_found _ _ _ Hroot) as Hbuild.
    destruct (GradleLegacy.findGradleBuildFile env pwd) as [b |];
      [| congruence].
    resolver_cases. all: try (destruct explicit; discriminate).
    all: intros [= <-]; cbn [GradleLegacy.rootBuildFile GradleLegacy.buildFile
                             GradleLegacy.command str];
         rewrite ?nonEmpty_pathString; trivial.
  - resolver_cases. all: try (destruct explicit; discriminate).
    all: intros [= <-]; cbn [GradleLegacy.rootBuildFile GradleLegacy.buildFile
                             GradleLegacy.command str];
         rewrite ?nonEmpty_pathString; trivial.
Qed.

Lemma legacy_root_needs_nearest_witness :
  exists c, GradleLegacy.FindGradle chainContext true true [] = Plan c /\
    nonEmpty (GradleLegacy.rootBuildFile c) = true /\
    nonEmpty (GradleLegacy.buildFile c) = true.
Proof.
  destruct (GradleLegacy.FindGradle chainContext true true []) as [s | | c] eqn:Hplan;
    [vm_compute in Hplan; discriminate .. |].
  exists c. split; [reflexivity |].
  assert (Hroot : nonEmpty (GradleLegacy.rootBuildFile c) = true).
  { vm_compute in Hplan. injection Hplan as <-. reflexivity. }
  split; [exact Hroot |].
  exact (legacy_root_needs_nearest chainContext true true [] c Hplan Hroot).
Defined.

(** ** The settings boundary on the chain of the working directory *)

Lemma length_of_append (a b : string) :
  String.length (a +:+ b) = String.length a + String.length b.
Proof.
  induction a as [| x a IH]; [reflexivity |]. simpl. rewrite IH. reflexivity.
Qed.

Lemma pathLen_cons (c : string) (up : path) : pathLen up <= pathLen (c :: up).
Proof.
  unfold pathLen, pathString. cbn [pathBody].
  rewrite !length_of_append. destruct up as [| d u]; simpl; lia.
Qed.

Lemma pathLen_suffix (a b : path) : a `suffix_of` b -> pathLen a <= pathLen b.
Proof.
  intros [k ->]. induction k as [| c k IH]; [reflexivity |].
  etransitivity; [exact IH | apply pathLen_cons].
Qed.

Lemma settings_search_on_chain (ctx : Context) (dir s : path) :
  Gradle.findGradleSettingsFile ctx dir = Some s -> Dir s `suffix_of` dir.
Proof.
  rewrite findGradleSettingsFile_upward, upward_some_iff.
  intros H. apply (upwardResult_on_chain _ _ _ _ H).
Qed.

(** X16. With the settings file discovered from the working directory as
    boundary, a root build file found from the parent of the working
    directory is either in that parent or in a directory strictly below
    the settings directory: above its start directory the root search
    never returns a file of the settings directory or of anything above
    it. *)
Theorem root_inside_settings_project (ctx : Context) (pwd s r : path) :
  Gradle.findGradleSettingsFile ctx pwd = Some s ->
  Gradle.findGradleRootFile ctx (parentOf pwd) (Some s) = Some r ->
  Dir r = parentOf pwd \/ exists k, k <> [] /\ Dir r = k ++ Dir s.
Proof.
  intros Hs Hr.
  destruct (root_search_within_boundary _ _ _ _ Hr) as [Hstart | Hlen];
    [left; exact Hstart | right].
  assert (Hrp : Dir r `suffix_of` pwd).
  { destruct (root_search_exists _ _ _ _ Hr) as [_ Hsuf].
    etransitivity; [exact Hsuf |]. unfold parentOf.
    destruct pwd as [| c up]; [reflexivity | apply suffix_cons_r; reflexivity]. }
  pose proof (settings_search_on_chain _ _ _ Hs) as Hsp.
  destruct (suffix_weak_total _ _ _ Hrp Hsp) as [Hrs | [k Hk]].
  - apply pathLen_suffix in Hrs. lia.
  - exists k. split; [| exact Hk].
    intros ->. simpl in Hk. rewrite Hk in Hlen. lia.
Qed.

Lemma root_inside_settings_project_witness :
  let ctx := treeContext [ "/p/settings.gradle"; "/p/a/build.gradle";
                           "/p/a/b/c/build.gradle" ]
               "/p/a/b/c" [] true plainConfig in
  let pwd := Abs [] "/p/a/b/c" in
  let s := Abs [] "/p/settings.gradle" in
  let r := Abs [] "/p/a/build.gradle" in
  Gradle.findGradleSettingsFile ctx pwd = Some s /\
  Gradle.findGradleRootFile ctx (parentOf pwd) (Some s) = Some r /\
  (Dir r = parentOf pwd \/ exists k, k <> [] /\ Dir r = k ++ Dir s).
Proof.
  intros ctx pwd s r.
  assert (Hs : Gradle.findGradleSettingsFile ctx pwd = Some s) by reflexivity.
  assert (Hr : Gradle.findGradleRootFile ctx (parentOf pwd) (Some s) = Some r)
    by reflexivity.
  split; [exact Hs |]. split; [exact Hr |].
  exact (root_inside_settings_project ctx pwd s r Hs Hr).
Defined.
